(** * Organization MFE backend: tenant-scoped CRUD over organization records

    A shallow embedding of [backend/src/index.js]: the Express routes
    [/organizations] and [/organizations/:id], the [auth] middleware in
    front of them, and the SQLite table [organizations] they read and
    write.

    - The table is a finite map from the primary key [id] to the other
      columns of the row.
    - Handlers are computations in a state-and-exception monad over the
      [World]: the table, the availability of the store, the clock read
      by [datetime('now')], the number of uuids drawn, and the trace of
      effects (tokens verified, SQL statements issued).
    - The libraries the file calls but does not contain ([jsonwebtoken],
      [uuid]) are an interface, [Libs].
    - Strings are byte strings (UTF-8, as SQLite stores and compares
      them).
    - A request is its [Authorization] header and its route, with the
      body as [express.json()] parsed it: an object from keys to JSON
      values. What Express does with an exception that leaves a handler
      is outside the file and outside this model: the outcome is then
      [Uncaught]. *)

From stdpp Require Import gmap strings list fin_maps sorting.
From Stdlib Require Import Ascii String ZArith.

Local Open Scope string_scope.

(** ** JavaScript strings *)

(** One-byte white space and line terminators of ECMAScript [trim]:
    TAB, LF, VT, FF, CR, SP. *)
Definition is_ws1 (a : ascii) : bool :=
  let n := nat_of_ascii a in
  (Nat.leb 9 n && Nat.leb n 13) || Nat.eqb n 32.

(** Two-byte: U+00A0 (C2 A0). *)
Definition is_ws2 (a b : ascii) : bool :=
  Nat.eqb (nat_of_ascii a) 194 && Nat.eqb (nat_of_ascii b) 160.

(** Three-byte: U+1680 (E1 9A 80), U+2000..U+200A (E2 80 80..8A),
    U+2028, U+2029 (E2 80 A8, A9), U+202F (E2 80 AF), U+205F (E2 81 9F),
    U+3000 (E3 80 80), U+FEFF (EF BB BF). *)
Definition is_ws3 (a b c : ascii) : bool :=
  let x := nat_of_ascii a in
  let y := nat_of_ascii b in
  let z := nat_of_ascii c in
  (Nat.eqb x 225 && Nat.eqb y 154 && Nat.eqb z 128)
  || (Nat.eqb x 226 && Nat.eqb y 128 &&
        ((Nat.leb 128 z && Nat.leb z 138) || Nat.eqb z 168 || Nat.eqb z 169
         || Nat.eqb z 175))
  || (Nat.eqb x 226 && Nat.eqb y 129 && Nat.eqb z 159)
  || (Nat.eqb x 227 && Nat.eqb y 128 && Nat.eqb z 128)
  || (Nat.eqb x 239 && Nat.eqb y 187 && Nat.eqb z 191).

(** [String.prototype.trimStart] on the bytes of the string. *)
Fixpoint trim_start (l : list ascii) : list ascii :=
  match l with
  | [] => []
  | a :: l1 =>
      if is_ws1 a then trim_start l1
      else match l1 with
           | [] => l
           | b :: l2 =>
               if is_ws2 a b then trim_start l2
               else match l2 with
                    | [] => l
                    | c :: l3 => if is_ws3 a b c then trim_start l3 else l
                    end
           end
  end.

(** [trimEnd], on the reversed bytes: the last character is read
    backwards. *)
Fixpoint trim_end_rev (l : list ascii) : list ascii :=
  match l with
  | [] => []
  | c :: l1 =>
      if is_ws1 c then trim_end_rev l1
      else match l1 with
           | [] => l
           | b :: l2 =>
               if is_ws2 b c then trim_end_rev l2
               else match l2 with
                    | [] => l
                    | a :: l3 => if is_ws3 a b c then trim_end_rev l3 else l
                    end
           end
  end.

(** [s.trim()] *)
Definition trim (s : string) : string :=
  string_of_list_ascii
    (rev (trim_end_rev (rev (trim_start (list_ascii_of_string s))))).

(** [s.replace(pat, rep)] with a string pattern: the first occurrence
    only. *)
Fixpoint replace_first (pat rep s : string) : string :=
  if String.prefix pat s
  then rep ++ String.substring (String.length pat)
                (String.length s - String.length pat) s
  else match s with
       | EmptyString => EmptyString
       | String c s' => String c (replace_first pat rep s')
       end.

(** ** JSON values of a request body

    [JUndefined] is what reading an absent key gives. Integers stand for
    all numbers: the handlers only test a number for zero. [JObject] is
    any object or array. *)

Inductive jsval :=
  | JUndefined
  | JNull
  | JBool (b : bool)
  | JNum (z : Z)
  | JStr (s : string)
  | JObject.

(** Truthiness, as [!v] and [v || d] test it. *)
Definition truthy (v : jsval) : bool :=
  match v with
  | JUndefined | JNull => false
  | JBool b => b
  | JNum z => negb (Z.eqb z 0)
  | JStr s => negb (String.eqb s "")
  | JObject => true
  end.

(** [v || d] *)
Definition js_or (v d : jsval) : jsval := if truthy v then v else d.

(** [const { k } = req.body] *)
Definition field (body : gmap string jsval) (k : string) : jsval :=
  default JUndefined (body !! k).

(** ** The table [organizations] *)

(** What a TEXT column holds: NULL, a text, or the text SQLite renders for
    a number bound to it (the rendering itself is not modelled). *)
Inductive colval :=
  | CNull
  | CText (s : string)
  | CNum (z : Z).

(** The columns of a row other than the primary key. *)
Record Row := mkRow {
  tenant_id : string;
  name : string;
  org_number : colval;
  address : colval;
  city : colval;
  zip : colval;
  phone : colval;
  email : colval;
  website : colval;
  description : colval;
  created_at : string;
  updated_at : option string
}.

(** A row as [SELECT *] returns it. *)
Record Org := mkOrg { id : string; data : Row }.

Global Instance colval_eq_dec : EqDecision colval.
Proof. solve_decision. Defined.
Global Instance Row_eq_dec : EqDecision Row.
Proof. solve_decision. Defined.
Global Instance Org_eq_dec : EqDecision Org.
Proof. solve_decision. Defined.

(** [ORDER BY name]: the BINARY collation compares the bytes. *)
Definition name_le (o1 o2 : Org) : Prop :=
  String.leb (name (data o1)) (name (data o2)) = true.

Global Instance name_le_dec : RelDecision name_le.
Proof. intros o1 o2. unfold name_le. apply _. Defined.

(** ** The world a handler runs in *)

Inductive stmt :=
  | SelectByTenant (t : string)
  | SelectByIdTenant (i t : string)
  | SelectById (i : string)
  | Insert (i : string)
  | Update (i t : string)
  | Delete (i t : string).

Inductive effect :=
  | EVerify (token : string)
  | EUuid
  | ESql (q : stmt).

Record World := mkWorld {
  rows : gmap string Row;
  online : bool;
  clock : string;
  uuid_calls : nat;
  trace : list effect
}.

Definition log (e : effect) (w : World) : World :=
  mkWorld (rows w) (online w) (clock w) (uuid_calls w) (trace w ++ [e]).

Definition set_rows (rs : gmap string Row) (w : World) : World :=
  mkWorld rs (online w) (clock w) (uuid_calls w) (trace w).

Definition set_clock (t : string) (w : World) : World :=
  mkWorld (rows w) (online w) t (uuid_calls w) (trace w).

(** ** Exceptions and the handler monad *)

Inductive exn :=
  | TypeError
  | SqliteError.

Inductive result (A : Type) :=
  | Ok (a : A)
  | Throw (e : exn).
Arguments Ok {A} a.
Arguments Throw {A} e.

Definition M (A : Type) : Type := World -> result A * World.

Definition ret {A} (a : A) : M A := fun w => (Ok a, w).

Definition throw {A} (e : exn) : M A := fun w => (Throw e, w).

Definition bind {A B} (m : M A) (k : A -> M B) : M B :=
  fun w =>
    match m w with
    | (Ok a, w') => k a w'
    | (Throw e, w') => (Throw e, w')
    end.

Notation "x <- m ;; k" := (bind m (fun x => k))
  (at level 100, m at next level, right associativity).

(** ** SQL statements

    Every statement is logged, then fails with [SqliteError] when the
    store is unavailable. *)

Definition stmt_io {A} (q : stmt) (run : M A) : M A :=
  fun w =>
    let w' := log (ESql q) w in
    if online w' then run w' else (Throw SqliteError, w').

Definition org_of (kv : string * Row) : Org := mkOrg kv.1 kv.2.

(** [SELECT * FROM organizations WHERE tenant_id = ? ORDER BY name].
    The order among rows of equal name, which SQL leaves open, is the one
    the merge sort gives from the enumeration of the map. *)
Definition select_by_tenant (t : string) : M (list Org) :=
  stmt_io (SelectByTenant t) (fun w =>
    (Ok (merge_sort name_le
           (org_of <$> filter (fun kv => tenant_id kv.2 = t)
                         (map_to_list (rows w)))), w)).

(** The row with this id, when it is this tenant's. *)
Definition lookup_scoped (rs : gmap string Row) (i t : string) : option Org :=
  match rs !! i with
  | Some r => if decide (tenant_id r = t) then Some (mkOrg i r) else None
  | None => None
  end.

(** [SELECT * FROM organizations WHERE id = ? AND tenant_id = ?] *)
Definition select_by_id_tenant (i t : string) : M (option Org) :=
  stmt_io (SelectByIdTenant i t) (fun w =>
    (Ok (lookup_scoped (rows w) i t), w)).

(** [SELECT * FROM organizations WHERE id = ?] *)
Definition select_by_id (i : string) : M (option Org) :=
  stmt_io (SelectById i) (fun w => (Ok (mkOrg i <$> rows w !! i), w)).

(** [INSERT INTO organizations (id, tenant_id, name, ...) VALUES (...)]:
    [created_at] and [updated_at] take their defaults; a second row with
    the same primary key is refused. *)
Definition insert_org (i t nm : string)
    (org_number address city zip phone email website description : colval)
    : M unit :=
  stmt_io (Insert i) (fun w =>
    match rows w !! i with
    | Some _ => (Throw SqliteError, w)
    | None =>
        (Ok tt,
         set_rows (<[i := mkRow t nm org_number address city zip phone email
                           website description (clock w) None]> (rows w)) w)
    end).

(** [UPDATE organizations SET name=?, ..., updated_at=datetime('now')
     WHERE id=? AND tenant_id=?] *)
Definition update_org (nm : string)
    (org_number address city zip phone email website description : colval)
    (i t : string) : M unit :=
  stmt_io (Update i t) (fun w =>
    (Ok tt,
     set_rows
       (alter (fun r =>
                 if decide (tenant_id r = t)
                 then mkRow (tenant_id r) nm org_number address city zip phone
                        email website description (created_at r)
                        (Some (clock w))
                 else r) i (rows w)) w)).

(** [DELETE FROM organizations WHERE id = ? AND tenant_id = ?] *)
Definition delete_org (i t : string) : M unit :=
  stmt_io (Delete i t) (fun w =>
    (Ok tt,
     set_rows
       (match rows w !! i with
        | Some r => if decide (tenant_id r = t) then delete i (rows w)
                    else rows w
        | None => rows w
        end) w)).

(** A parameter of [.run(...)]: numbers, strings and null are bound,
    anything else is a [TypeError]. *)
Definition bound (v : jsval) : result colval :=
  match v with
  | JNull => Ok CNull
  | JStr s => Ok (CText s)
  | JNum z => Ok (CNum z)
  | JUndefined | JBool _ | JObject => Throw TypeError
  end.

Definition bind_param (v : jsval) : M colval := fun w => (bound v, w).

(** [name.trim()]: only a string has the method. *)
Definition call_trim (v : jsval) : M string :=
  match v with
  | JStr s => ret (trim s)
  | _ => throw TypeError
  end.

(** ** Responses *)

Inductive json :=
  | JError (msg : string)             (* { error: msg } *)
  | JOrganizations (orgs : list Org)  (* { organizations: orgs } *)
  | JOrg (org : option Org)           (* a row, or undefined *)
  | JOkTrue.                          (* { ok: true } *)

Record response := mkResponse { status : nat; body : json }.

(** [res.status(c).json(j)]; [res.json(j)] is [send 200 j]. *)
Definition send (c : nat) (j : json) : M response := ret (mkResponse c j).

(** ** The libraries behind [require] *)

(** The payload of a verified token: the claim the routes read,
    [req.user.tenantId], which the issuer of the tokens sets to a
    string. *)
Record user := mkUser { tenantId : string }.

Class Libs := {
  (** [process.env.JWT_SECRET || 'change-me-in-production'] *)
  JWT_SECRET : string;
  (** [jwt.verify(token, secret)]: the payload, or [None] when it throws *)
  jwt_verify : string -> string -> option user;
  (** the value of the n-th call of [uuidv4()] *)
  uuidv4_nth : nat -> string
}.

Section Service.
Context {L : Libs}.

(** [jwt.verify(token, JWT_SECRET)] *)
Definition verify (token : string) : M (option user) :=
  fun w => (Ok (jwt_verify token JWT_SECRET), log (EVerify token) w).

(** [uuidv4()] *)
Definition uuidv4 : M string :=
  fun w =>
    (Ok (uuidv4_nth (uuid_calls w)),
     log EUuid
       (mkWorld (rows w) (online w) (clock w) (S (uuid_calls w)) (trace w))).

(** ** Route handlers *)

(** [GET /organizations] *)
Definition get_organizations (u : user) : M response :=
  let tenantId := tenantId u in
  orgs <- select_by_tenant tenantId ;;
  send 200 (JOrganizations orgs).

(** [GET /organizations/:id] *)
Definition get_organization (u : user) (i : string) : M response :=
  org <- select_by_id_tenant i (tenantId u) ;;
  match org with
  | None => send 404 (JError "Not found")
  | Some _ => send 200 (JOrg org)
  end.

(** [!name || !name.trim()] *)
Definition name_missing (nm : jsval) : M bool :=
  if negb (truthy nm) then ret true
  else (t <- call_trim nm ;; ret (negb (truthy (JStr t)))).

(** [POST /organizations] *)
Definition post_organizations (u : user) (b : gmap string jsval)
    : M response :=
  let nm := field b "name" in
  missing <- name_missing nm ;;
  if (missing : bool) then send 400 (JError "Namn krävs")
  else
    i <- uuidv4 ;;
    n <- call_trim nm ;;
    p1 <- bind_param (js_or (field b "org_number") (JStr "")) ;;
    p2 <- bind_param (js_or (field b "address") (JStr "")) ;;
    p3 <- bind_param (js_or (field b "city") (JStr "")) ;;
    p4 <- bind_param (js_or (field b "zip") (JStr "")) ;;
    p5 <- bind_param (js_or (field b "phone") (JStr "")) ;;
    p6 <- bind_param (js_or (field b "email") (JStr "")) ;;
    p7 <- bind_param (js_or (field b "website") (JStr "")) ;;
    p8 <- bind_param (js_or (field b "description") (JStr "")) ;;
    _ <- insert_org i (tenantId u) n p1 p2 p3 p4 p5 p6 p7 p8 ;;
    org <- select_by_id i ;;
    send 201 (JOrg org).

(** [PUT /organizations/:id] *)
Definition put_organization (u : user) (i : string)
    (b : gmap string jsval) : M response :=
  existing <- select_by_id_tenant i (tenantId u) ;;
  match existing with
  | None => send 404 (JError "Not found")
  | Some _ =>
      let nm := field b "name" in
      missing <- name_missing nm ;;
      if (missing : bool) then send 400 (JError "Namn krävs")
      else
        n <- call_trim nm ;;
        p1 <- bind_param (js_or (field b "org_number") (JStr "")) ;;
        p2 <- bind_param (js_or (field b "address") (JStr "")) ;;
        p3 <- bind_param (js_or (field b "city") (JStr "")) ;;
        p4 <- bind_param (js_or (field b "zip") (JStr "")) ;;
        p5 <- bind_param (js_or (field b "phone") (JStr "")) ;;
        p6 <- bind_param (js_or (field b "email") (JStr "")) ;;
        p7 <- bind_param (js_or (field b "website") (JStr "")) ;;
        p8 <- bind_param (js_or (field b "description") (JStr "")) ;;
        _ <- update_org n p1 p2 p3 p4 p5 p6 p7 p8 i (tenantId u) ;;
        org <- select_by_id i ;;
        send 200 (JOrg org)
  end.

(** [DELETE /organizations/:id] *)
Definition delete_organization (u : user) (i : string) : M response :=
  existing <- select_by_id_tenant i (tenantId u) ;;
  match existing with
  | None => send 404 (JError "Not found")
  | Some _ =>
      _ <- delete_org i (tenantId u) ;;
      send 200 (JOkTrue)
  end.

(** ** The [auth] middleware and the router *)

(** [auth(req, res, next)]: [next] is the route handler, which receives
    [req.user]. An exception of [jwt.verify] is caught here; one thrown
    by the handler is not (the router catches it around the handler's own
    layer and hands it to the framework's error handling). *)
Definition auth (header : option string) (next : user -> M response)
    : M response :=
  match header with
  | None => send 401 (JError "No token provided")
  | Some h =>
      if negb (truthy (JStr h)) then send 401 (JError "No token provided")
      else
        let token := replace_first "Bearer " "" h in
        decoded <- verify token ;;
        match decoded with
        | Some u => next u
        | None => send 401 (JError "Invalid token")
        end
  end.

Inductive route :=
  | GET_organizations
  | GET_organization (i : string)
  | POST_organizations (b : gmap string jsval)
  | PUT_organization (i : string) (b : gmap string jsval)
  | DELETE_organization (i : string).

Record request := mkRequest {
  authorization : option string;   (* req.headers.authorization *)
  target : route
}.

Definition handler (r : route) (u : user) : M response :=
  match r with
  | GET_organizations => get_organizations u
  | GET_organization i => get_organization u i
  | POST_organizations b => post_organizations u b
  | PUT_organization i b => put_organization u i b
  | DELETE_organization i => delete_organization u i
  end.

(** What the service makes of a request: a response it sent, or an
    exception no code of the service caught. *)
Inductive outcome :=
  | Responded (r : response)
  | Uncaught (e : exn).

Definition serve (req : request) (w : World) : outcome * World :=
  match auth (authorization req) (handler (target req)) w with
  | (Ok r, w') => (Responded r, w')
  | (Throw e, w') => (Uncaught e, w')
  end.

End Service.

(** ** A concrete instance, for running the handlers on examples *)

(** A token [tok-T] verifies to tenant [T] under the default secret. *)
Definition sample_libs : Libs := {|
  JWT_SECRET := "change-me-in-production";
  jwt_verify := fun token secret =>
    if String.eqb secret "change-me-in-production" && String.prefix "tok-" token
    then Some (mkUser (String.substring 4 (String.length token - 4) token))
    else None;
  uuidv4_nth := fun n => String.concat "" (replicate (S n) "u")
|}.

Definition empty_world : World := mkWorld ∅ true "2024-01-01 00:00:00" 0 [].

Definition t1 : user := mkUser "t1".
Definition t2 : user := mkUser "t2".

Definition acme : gmap string jsval :=
  <["name" := JStr "Acme AB"]> (<["city" := JStr "Stockholm"]> ∅).

Definition named (n : string) : gmap string jsval := <["name" := JStr n]> ∅.

(** The world after [h] has run in [w]. *)
Definition after {A} (h : M A) (w : World) : World := (h w).2.

(** ** Vocabulary of the properties *)

(** The optional columns: the key read from the body and the column
    written. *)
Definition optional_columns : list (string * (Row -> colval)) :=
  [("org_number", org_number); ("address", address); ("city", city);
   ("zip", zip); ("phone", phone); ("email", email); ("website", website);
   ("description", description)].

(** The keys a handler reads from the body. *)
Definition body_keys : list string := "name" :: optional_columns.*1.

(** A name that is absent, null, empty, or trims to the empty string. *)
Definition blank_name (v : jsval) : bool :=
  match v with
  | JUndefined | JNull => true
  | JStr s => String.eqb (trim s) ""
  | _ => false
  end.

(** A name that is a string and does not trim to the empty string. *)
Definition proper_name (v : jsval) : bool :=
  match v with
  | JStr s => negb (String.eqb (trim s) "")
  | _ => false
  end.

(** An optional field that can be stored: absent or falsy (stored as the
    empty string), a string, or a number. *)
Definition storable (v : jsval) : bool :=
  match js_or v (JStr "") with
  | JStr _ | JNum _ => true
  | _ => false
  end.

(** A valid field set: a proper name and storable optional fields. *)
Definition valid_body (b : gmap string jsval) : bool :=
  proper_name (field b "name")
  && forallb (fun k => storable (field b k)) optional_columns.*1.

(** The value an optional field is stored as. *)
Definition stored (v : jsval) : colval :=
  match js_or v (JStr "") with
  | JStr s => CText s
  | JNum z => CNum z
  | _ => CNull
  end.

(** The row a valid body writes, given the columns the body does not
    determine. *)
Definition row_of (t : string) (b : gmap string jsval)
    (created : string) (updated : option string) : Row :=
  mkRow t
    (match field b "name" with JStr s => trim s | _ => "" end)
    (stored (field b "org_number")) (stored (field b "address"))
    (stored (field b "city")) (stored (field b "zip"))
    (stored (field b "phone")) (stored (field b "email"))
    (stored (field b "website")) (stored (field b "description"))
    created updated.

Definition not_found : response := mkResponse 404 (JError "Not found").

Definition bad_request : response := mkResponse 400 (JError "Namn krävs").

(** The statuses the routes and the middleware send. *)
Definition sent_statuses : list nat := [200; 201; 400; 401; 404].

(** ** Sample worlds *)

(** After [POST {name: "Acme AB", city: "Stockholm"}] under tenant t1. *)
Definition world_acme : World :=
  after (post_organizations (L := sample_libs) t1 acme) empty_world.

(** After three creates under t1, named "Zeta", "Alpha", "Mid". *)
Definition world_three : World :=
  after (post_organizations (L := sample_libs) t1 (named "Mid"))
    (after (post_organizations (L := sample_libs) t1 (named "Alpha"))
       (after (post_organizations (L := sample_libs) t1 (named "Zeta"))
          empty_world)).


(** A full replacement of the Acme record that also tries to set
    [tenant_id]. *)
Definition goteborg : gmap string jsval :=
  <["name" := JStr " Acme AB "]>
    (<["city" := JStr "Göteborg"]> (<["tenant_id" := JStr "t2"]> ∅)).

(** ** Vocabulary of the further properties *)

(** [s.includes(pat)] *)
Fixpoint contains (pat s : string) : bool :=
  String.prefix pat s
  || match s with
     | EmptyString => false
     | String _ s' => contains pat s'
     end.


(** A name as the handlers store it: not empty, and with nothing left to
    trim. *)
Definition trimmed_name (r : Row) : Prop :=
  name r ≠ "" ∧ trim (name r) = name r.

Definition names_ok (rs : gmap string Row) : Prop :=
  map_Forall (λ _ r, trimmed_name r) rs.

(** The statuses of the error responses. *)
Definition is_error_status (c : nat) : bool :=
  Nat.eqb c 400 || Nat.eqb c 401 || Nat.eqb c 404.

(** ** White space at the ends of a trimmed string *)

(** No white space of one, two or three bytes at the head of the list. *)
Definition clean_head (l : list ascii) : Prop :=
  match l with
  | [] => True
  | a :: l1 =>
      is_ws1 a = false ∧
      match l1 with
      | [] => True
      | b :: l2 =>
          is_ws2 a b = false ∧
          match l2 with
          | [] => True
          | c :: _ => is_ws3 a b c = false
          end
      end
  end.

(** The same read backwards, at the head of the reversed list. *)
Definition clean_last (l : list ascii) : Prop :=
  match l with
  | [] => True
  | c :: l1 =>
      is_ws1 c = false ∧
      match l1 with
      | [] => True
      | b :: l2 =>
          is_ws2 b c = false ∧
          match l2 with
          | [] => True
          | a :: _ => is_ws3 a b c = false
          end
      end
  end.

(** The bytes [trim] keeps: clean at both ends. *)
Definition trimmed_bytes (l : list ascii) : list ascii :=
  rev (trim_end_rev (rev (trim_start l))).

(** ** Start-up: configuration and [autoRegister] *)

Module Startup.

(** [process.env.K || d]: an unset or empty variable gives the default. *)
Definition env_or (env : gmap string string) (k d : string) : string :=
  match env !! k with
  | Some v => if truthy (JStr v) then v else d
  | None => d
  end.

(** The constants read from the environment. The default of [DB_PATH] is
    computed from [__dirname] and is a parameter here; the port is kept
    as text. *)
Record Config := mkConfig {
  PORT : string;
  DB_PATH : string;
  JWT_SECRET : string;
  MFE_HOST_API_URL : string;
  MFE_ADMIN_TOKEN : string;
  MFE_ENTRY_URL : string
}.

Definition config (env : gmap string string) (default_db_path : string)
    : Config :=
  {| PORT := env_or env "PORT" "3045";
     DB_PATH := env_or env "DB_PATH" default_db_path;
     JWT_SECRET := env_or env "JWT_SECRET" "change-me-in-production";
     MFE_HOST_API_URL := env_or env "MFE_HOST_API_URL" "http://localhost:3041";
     MFE_ADMIN_TOKEN := env_or env "MFE_ADMIN_TOKEN" "";
     MFE_ENTRY_URL :=
       env_or env "MFE_ENTRY_URL"
         "http://localhost:3044/assets/remoteEntry.js" |}.

(** The argument of [fetch]. *)
Record fetch_request := mkFetch {
  url : string;
  method : string;
  headers : list (string * string);
  body : list (string * string)   (* the object given to JSON.stringify *)
}.

(** What [fetch] does: it rejects, or resolves to a response of which the
    status is read and of which [text()] resolves or rejects. *)
Inductive fetch_outcome :=
  | FetchRejects (message : string)
  | FetchResponse (status : nat) (text : string + string).

(** An argument of [console.log]. *)
Inductive arg :=
  | AStr (s : string)
  | ANum (n : nat).

Inductive event :=
  | Log (args : list arg)
  | Fetch (req : fetch_request).

(** A computation that logs and fetches, and ends with a value or with
    an exception of which only the message is kept. *)
Definition P (A : Type) : Type := list event → (string + A) * list event.

Definition pure {A} (a : A) : P A := fun t => (inr a, t).

Definition raise {A} (message : string) : P A := fun t => (inl message, t).

Definition then_ {A B} (m : P A) (k : A → P B) : P B :=
  fun t =>
    match m t with
    | (inr a, t') => k a t'
    | (inl e, t') => (inl e, t')
    end.

(** [try { m } catch (e) { h(e.message) }] *)
Definition try_catch {A} (m : P A) (h : string → P A) : P A :=
  fun t =>
    match m t with
    | (inr a, t') => (inr a, t')
    | (inl e, t') => h e t'
    end.

Definition console_log (args : list arg) : P unit :=
  fun t => (inr tt, (t ++ [Log args])%list).

(** [res.ok] *)
Definition res_ok (status : nat) : bool :=
  Nat.leb 200 status && Nat.leb status 299.

Section Net.
Variable net : fetch_request → fetch_outcome.

(** [await fetch(url, init)]: the status of the response and its
    [text()], not yet read. *)
Definition fetch (req : fetch_request) : P (nat * (string + string)) :=
  fun t =>
    let t' := (t ++ [Fetch req])%list in
    match net req with
    | FetchRejects message => (inl message, t')
    | FetchResponse status text => (inr (status, text), t')
    end.

(** [await res.text()] *)
Definition res_text (text : string + string) : P string :=
  match text with
  | inl message => raise message
  | inr s => pure s
  end.

(** [autoRegister()] *)
Definition autoRegister (c : Config) : P unit :=
  if negb (truthy (JStr (MFE_ADMIN_TOKEN c)))
  then console_log [AStr "No MFE_ADMIN_TOKEN set, skipping auto-registration"]
  else
    try_catch
      (then_
         (fetch
            {| url := MFE_HOST_API_URL c ++ "/api/admin/modules";
               method := "POST";
               headers := [("Content-Type", "application/json");
                           ("x-admin-token", MFE_ADMIN_TOKEN c)];
               body := [("name", "Organisation");
                        ("description",
                         "Organisation MFE - hantera företagsinformation");
                        ("scope", "organizationMfe");
                        ("module", "./App");
                        ("entry_url", MFE_ENTRY_URL c);
                        ("icon", "🏢");
                        ("route", "/organization")] |})
         (fun res =>
            if res_ok res.1
            then console_log [AStr "✅ Auto-registered with MFE-Host"]
            else
              then_ (res_text res.2) (fun body =>
                console_log [AStr "Auto-registration response:";
                             ANum res.1; AStr body])))
      (fun message =>
         console_log
           [AStr "Auto-registration failed (host may not be ready):";
            AStr message]).

(** The callback of [app.listen]: the banner, then [autoRegister()],
    whose promise nobody awaits. *)
Definition on_listen (c : Config) : P unit :=
  then_
    (console_log
       [AStr ("🏢 Organization MFE Backend running on port " ++ PORT c)])
    (fun _ => autoRegister c).

End Net.

(** The requests among the events. *)
Definition fetches (t : list event) : list fetch_request :=
  omap (fun e => match e with Fetch r => Some r | Log _ => None end) t.

Definition logs (t : list event) : list (list arg) :=
  omap (fun e => match e with Log a => Some a | Fetch _ => None end) t.

End Startup.

(** ** The form UI, [frontend/src/App.tsx] *)

Module Frontend.

(** [interface Organization] *)
Record Organization := mkOrganization {
  id : string;
  name : string;
  org_number : string;
  address : string;
  city : string;
  zip : string;
  phone : string;
  email : string;
  website : string;
  description : string;
  created_at : string;
  updated_at : option string
}.

(** [OrgForm]: the object held in the [form] state, from its nine keys to
    their values. [setField] writes it by a computed key, hence a map. *)
Definition emptyForm : gmap string jsval :=
  <["name" := JStr ""]> (<["org_number" := JStr ""]>
  (<["address" := JStr ""]> (<["city" := JStr ""]> (<["zip" := JStr ""]>
  (<["phone" := JStr ""]> (<["email" := JStr ""]>
  (<["website" := JStr ""]> (<["description" := JStr ""]> ∅)))))))).

(** [window.__MFE_ORG_BACKEND_URL__ || '/api/mfe/organization'] *)
Definition BACKEND_URL (override : option string) : string :=
  match override with
  | Some s => if truthy (JStr s) then s else "/api/mfe/organization"
  | None => "/api/mfe/organization"
  end.

(** [RequestInit], as far as the callers of [api] fill it. The body is
    the value given to [JSON.stringify]. *)
Record RequestInit := mkInit {
  method : option string;
  body : option (gmap string jsval);
  headers : gmap string string
}.

(** [{}] *)
Definition no_options : RequestInit := mkInit None None ∅.

(** The arguments of [fetch]. *)
Record fetch_call := mkCall { url : string; init : RequestInit }.

(** The call [api(path, options)] makes. Later spreads win: the caller's
    headers over [Authorization] over [Content-Type]. [token] is
    [getToken()], the [accessToken] item of the local storage. *)
Definition api_call (backend_url : string) (token : option string)
    (path : string) (options : RequestInit) : fetch_call :=
  mkCall (backend_url ++ path)
    (mkInit (method options) (body options)
       (headers options ∪
        (match token with
         | Some t => if truthy (JStr t)
                     then {["Authorization" := "Bearer " ++ t]} else ∅
         | None => ∅
         end ∪ {["Content-Type" := "application/json"]}))).

(** The objects the UI reads off a parsed response body. *)
Inductive data :=
  | DError (error : string)                    (* { error } *)
  | DOrganizations (organizations : list Organization)
  | DOrg (org : Organization)
  | DOk.                                       (* { ok: true } *)

(** What [fetch] gives [api]: a rejection, or a response with its status,
    its status text, and what [res.json()] resolves to or the message it
    rejects with. *)
Inductive fetch_outcome :=
  | NetworkError (message : string)
  | Response (status : nat) (statusText : string) (parsed : string + data).

(** The promise [api] returns: resolved with the data, or rejected with
    an error of this message. *)
Inductive api_result :=
  | Resolved (d : data)
  | Rejected (message : string).

(** [err.error || res.statusText] *)
Definition error_message (parsed : string + data) (statusText : string)
    : string :=
  match parsed with
  | inr (DError e) => if truthy (JStr e) then e else statusText
  | _ => statusText
  end.

(** The rest of [api], after [fetch]. *)
Definition api_result_of (o : fetch_outcome) : api_result :=
  match o with
  | NetworkError message => Rejected message
  | Response status statusText parsed =>
      if negb (Startup.res_ok status)
      then Rejected (error_message parsed statusText)
      else match parsed with
           | inr d => Resolved d
           | inl message => Rejected message
           end
  end.

(** *** The state of [App] *)

Inductive view_t := list_view | form_view | detail_view.

Record State := mkState {
  orgs : list Organization + data;   (* the second after a list response
                                        that is no list *)
  form : gmap string jsval;
  editId : option string;
  view : view_t;
  selected : option Organization;
  error : string;
  success : string;
  loading : bool
}.

Definition setOrgs (x : list Organization + data) (s : State) : State :=
  mkState x (form s) (editId s) (view s) (selected s) (error s) (success s)
    (loading s).
Definition setForm (x : gmap string jsval) (s : State) : State :=
  mkState (orgs s) x (editId s) (view s) (selected s) (error s) (success s)
    (loading s).
Definition setEditId (x : option string) (s : State) : State :=
  mkState (orgs s) (form s) x (view s) (selected s) (error s) (success s)
    (loading s).
Definition setView (x : view_t) (s : State) : State :=
  mkState (orgs s) (form s) (editId s) x (selected s) (error s) (success s)
    (loading s).
Definition setSelected (x : option Organization) (s : State) : State :=
  mkState (orgs s) (form s) (editId s) (view s) x (error s) (success s)
    (loading s).
Definition setError (x : string) (s : State) : State :=
  mkState (orgs s) (form s) (editId s) (view s) (selected s) x (success s)
    (loading s).
Definition setSuccess (x : string) (s : State) : State :=
  mkState (orgs s) (form s) (editId s) (view s) (selected s) (error s) x
    (loading s).
Definition setLoading (x : bool) (s : State) : State :=
  mkState (orgs s) (form s) (editId s) (view s) (selected s) (error s)
    (success s) x.

(** The initial values of the [useState] calls. *)
Definition initial : State :=
  mkState (inl []) emptyForm None list_view None "" "" false.

(** An async handler after its synchronous start: finished, rejected
    with an exception, or waiting for [api(path, options)]. When the
    promise settles the state is updated by [resume], and [next] tells
    what the handler does then. *)
Inductive proc :=
  | Return
  | Reject (e : exn)
  | Await (path : string) (options : RequestInit)
      (resume : api_result → State → State) (next : api_result → proc).

(** [data.organizations || data] *)
Definition organizations_or (d : data) : list Organization + data :=
  match d with
  | DOrganizations l => inl l
  | _ => inr d
  end.

(** [load] *)
Definition load (s : State) : State * proc :=
  (setLoading true s,
   Await "/organizations" no_options
     (fun res s' =>
        setLoading false
          (match res with
           | Resolved d => setOrgs (organizations_or d) s'
           | Rejected message => setError message s'
           end))
     (fun _ => Return)).

(** [clearMessages] *)
Definition clearMessages (s : State) : State := setSuccess "" (setError "" s).

(** [handleSave]. [form] and [editId] are those of the render the handler
    was created in. *)
Definition handleSave (s : State) : State * proc :=
  let s1 := clearMessages s in
  match field (form s) "name" with
  | JStr n =>
      if negb (truthy (JStr (trim n)))
      then (setError "Namn krävs" s1, Return)
      else
        let saved message res s' :=
          match res with
          | Resolved _ =>
              (load (setView list_view (setEditId None
                 (setForm emptyForm (setSuccess message s'))))).1
          | Rejected e => setError e s'
          end in
        let reload res :=
          match res with
          | Resolved _ => (load s).2
          | Rejected _ => Return
          end in
        match editId s with
        | Some i =>
            if truthy (JStr i)
            then (s1, Await ("/organizations/" ++ i)
                        (mkInit (Some "PUT") (Some (form s)) ∅)
                        (saved "Organisation uppdaterad!") reload)
            else (s1, Await "/organizations"
                        (mkInit (Some "POST") (Some (form s)) ∅)
                        (saved "Organisation skapad!") reload)
        | None =>
            (s1, Await "/organizations"
                   (mkInit (Some "POST") (Some (form s)) ∅)
                   (saved "Organisation skapad!") reload)
        end
  | _ => (s1, Reject TypeError)
  end.

(** [handleDelete(id)]; [confirmed] is what [confirm(...)] returns. *)
Definition handleDelete (i : string) (confirmed : bool) (s : State)
    : State * proc :=
  let s1 := clearMessages s in
  if negb confirmed then (s1, Return)
  else
    (s1, Await ("/organizations/" ++ i) (mkInit (Some "DELETE") None ∅)
           (fun res s' =>
              match res with
              | Resolved _ =>
                  (load (setView list_view
                     (setSuccess "Organisation borttagen!" s'))).1
              | Rejected e => setError e s'
              end)
           (fun res =>
              match res with
              | Resolved _ => (load s).2
              | Rejected _ => Return
              end)).

(** The form [openEdit] fills in. *)
Definition form_of (org : Organization) : gmap string jsval :=
  <["name" := JStr (name org)]> (<["org_number" := JStr (org_number org)]>
  (<["address" := JStr (address org)]> (<["city" := JStr (city org)]>
  (<["zip" := JStr (zip org)]> (<["phone" := JStr (phone org)]>
  (<["email" := JStr (email org)]> (<["website" := JStr (website org)]>
  (<["description" := JStr (description org)]> ∅)))))))).

(** [openEdit] *)
Definition openEdit (org : Organization) (s : State) : State :=
  clearMessages (setView form_view (setEditId (Some (id org))
    (setForm (form_of org) s))).

(** [openNew] *)
Definition openNew (s : State) : State :=
  clearMessages (setView form_view (setEditId None (setForm emptyForm s))).

(** [openDetail] *)
Definition openDetail (org : Organization) (s : State) : State :=
  clearMessages (setView detail_view (setSelected (Some org) s)).

(** [setField(key)(val)] *)
Definition setField (key val : string) (s : State) : State :=
  setForm (<[key := JStr val]> (form s)) s.

(** A handler run to its end, [net] settling each call; the state at the
    end and the calls made, in order. *)
Fixpoint run (net : string → RequestInit → api_result) (p : proc)
    (s : State) : State * list (string * RequestInit) :=
  match p with
  | Return | Reject _ => (s, [])
  | Await path options resume next =>
      let res := net path options in
      let '(s', calls) := run net (next res) (resume res s) in
      (s', (path, options) :: calls)
  end.

Definition run_handler (net : string → RequestInit → api_result)
    (h : State → State * proc) (s : State)
    : State * list (string * RequestInit) :=
  run net (h s).2 (h s).1.

End Frontend.

(** ** Between the service and the UI *)

(** A form as the UI keeps it: a string under each of the nine keys. *)
Definition ui_form (f : gmap string jsval) : Prop :=
  ∀ k, k ∈ body_keys → ∃ s, f !! k = Some (JStr s).

(** A token that [fetch] and HTTP carry unchanged in a header value:
    visible ASCII only, as the characters of a JWT are. *)
Definition header_safe (t : string) : bool :=
  forallb (fun a => Nat.leb 33 (nat_of_ascii a) && Nat.leb (nat_of_ascii a) 126)
    (list_ascii_of_string t).

(** A column as the UI types it, a string. Rows with a column that is
    not a text (written by a client that sent a number) are left out. *)
Definition text_of (c : colval) : option string :=
  match c with
  | CText s => Some s
  | _ => None
  end.

(** A row of a response body as the UI reads it. *)
Definition decode_org (o : Org) : option Frontend.Organization :=
  a1 ← text_of (org_number (data o));
  a2 ← text_of (address (data o));
  a3 ← text_of (city (data o));
  a4 ← text_of (zip (data o));
  a5 ← text_of (phone (data o));
  a6 ← text_of (email (data o));
  a7 ← text_of (website (data o));
  a8 ← text_of (description (data o));
  Some (Frontend.mkOrganization (id o) (name (data o)) a1 a2 a3 a4 a5 a6 a7 a8
          (created_at (data o)) (updated_at (data o))).

(** A response body as the UI reads it; [res.json(undefined)] sends
    nothing to read. *)
Definition decode_body (j : json) : option Frontend.data :=
  match j with
  | JError msg => Some (Frontend.DError msg)
  | JOrganizations l => Frontend.DOrganizations <$> mapM decode_org l
  | JOrg (Some o) => Frontend.DOrg <$> decode_org o
  | JOrg None => None
  | JOkTrue => Some Frontend.DOk
  end.

(** The row with [updated_at] set. *)
Definition touched (t : string) (r : Row) : Row :=
  mkRow (tenant_id r) (name r) (org_number r) (address r) (city r) (zip r)
    (phone r) (email r) (website r) (description r) (created_at r) (Some t).

(** ** Samples for the further properties *)

(** The Acme row of [world_acme], and the record the UI reads it as. *)
Definition acme_row : Row := row_of "t1" acme "2024-01-01 00:00:00" None.

Definition acme_org : Frontend.Organization :=
  Frontend.mkOrganization "u" "Acme AB" "" "" "Stockholm" "" "" "" "" ""
    "2024-01-01 00:00:00" None.

(** [world_acme] at a moment when [uuidv4] draws the id of the Acme row
    again. *)
Definition world_collision : World :=
  mkWorld (rows world_acme) true "2024-05-05 00:00:00" 0 [].

(** A body whose name is the number 5. *)
Definition name_five : gmap string jsval := <["name" := JNum 5]> ∅.

(** The form after the user typed a name into the empty form. *)
Definition typed_state : Frontend.State :=
  Frontend.setField "name" " Acme AB" Frontend.initial.

Arguments field : simpl never.
Arguments trim : simpl never.
Arguments replace_first : simpl never.
Arguments lookup_scoped : simpl never.

(** * Properties *)

(** ** Byte order on names *)

Lemma ascii_compare_trans_lt (a b c : ascii) :
  Ascii.compare a b = Lt → Ascii.compare b c = Lt → Ascii.compare a c = Lt.
Proof.
  unfold Ascii.compare. rewrite !N.compare_lt_iff. lia.
Qed.

Lemma string_compare_refl (s : string) : String.compare s s = Eq.
Proof.
  induction s as [|a s IH]; simpl; [done|].
  unfold Ascii.compare. by rewrite N.compare_refl.
Qed.

Lemma string_compare_lt_trans (s1 s2 s3 : string) :
  String.compare s1 s2 = Lt → String.compare s2 s3 = Lt →
  String.compare s1 s3 = Lt.
Proof.
  revert s2 s3. induction s1 as [|a s1 IH]; intros [|b s2] [|c s3]; simpl;
    try done.
  destruct (Ascii.compare a b) eqn:Hab; try done;
    destruct (Ascii.compare b c) eqn:Hbc; try done; intros H12 H23.
  - apply Ascii.compare_eq_iff in Hab, Hbc. subst.
    unfold Ascii.compare. rewrite N.compare_refl. by apply IH with s2.
  - apply Ascii.compare_eq_iff in Hab. subst. by rewrite Hbc.
  - apply Ascii.compare_eq_iff in Hbc. subst. by rewrite Hab.
  - by rewrite (ascii_compare_trans_lt a b c).
Qed.

Lemma string_leb_trans (s1 s2 s3 : string) :
  String.leb s1 s2 = true → String.leb s2 s3 = true → String.leb s1 s3 = true.
Proof.
  unfold String.leb.
  destruct (String.compare s1 s2) eqn:H12; try done;
    destruct (String.compare s2 s3) eqn:H23; try done; intros _ _.
  - apply String.compare_eq_iff in H12, H23. subst.
    by rewrite string_compare_refl.
  - apply String.compare_eq_iff in H12. subst. by rewrite H23.
  - apply String.compare_eq_iff in H23. subst. by rewrite H12.
  - by rewrite (string_compare_lt_trans s1 s2 s3).
Qed.

Global Instance name_le_total : Total name_le.
Proof. intros o1 o2. apply String.leb_total. Qed.

Global Instance name_le_trans : Transitive name_le.
Proof. intros o1 o2 o3. apply string_leb_trans. Qed.

(** ** Running statements *)

Lemma stmt_io_online {A} (q : stmt) (run : M A) (w : World) :
  online w = true → stmt_io q run w = run (log (ESql q) w).
Proof. intros H. unfold stmt_io. simpl. by rewrite H. Qed.

Lemma stmt_io_offline {A} (q : stmt) (run : M A) (w : World) :
  online w = false → stmt_io q run w = (Throw SqliteError, log (ESql q) w).
Proof. intros H. unfold stmt_io. simpl. by rewrite H. Qed.

Lemma lookup_scoped_Some rs i t o :
  lookup_scoped rs i t = Some o ↔
  id o = i ∧ rs !! i = Some (data o) ∧ tenant_id (data o) = t.
Proof.
  unfold lookup_scoped. destruct o as [j r]. simpl. split.
  - destruct (rs !! i) as [r'|]; [|done]. case_decide; [|done].
    by intros [= <- <-].
  - intros (-> & -> & Ht). by rewrite decide_True.
Qed.

Lemma lookup_scoped_None rs i t :
  lookup_scoped rs i t = None ↔
  rs !! i = None ∨ ∃ r, rs !! i = Some r ∧ tenant_id r ≠ t.
Proof.
  unfold lookup_scoped. destruct (rs !! i) as [r|]; [|naive_solver].
  case_decide as Ht.
  - split; [done|]. intros [?|(r' & [= <-] & ?)]; done.
  - split; [|done]. intros _. right. by exists r.
Qed.

Lemma lookup_scoped_own rs i r :
  rs !! i = Some r → lookup_scoped rs i (tenant_id r) = Some (mkOrg i r).
Proof. intros H. unfold lookup_scoped. by rewrite H, decide_True. Qed.

(** ** Validity of a body, field by field *)

Lemma bound_storable v :
  storable v = true ↔ bound (js_or v (JStr "")) = Ok (stored v).
Proof.
  unfold storable, stored, js_or.
  destruct v as [| |[]|z|s|]; simpl; try destruct (Z.eqb z 0);
    try destruct (String.eqb s ""); simpl; split; done.
Qed.

Lemma bound_Ok v c :
  bound (js_or v (JStr "")) = Ok c → storable v = true ∧ stored v = c.
Proof.
  unfold storable, stored, js_or.
  destruct v as [| |[]|z|s|]; simpl; try destruct (Z.eqb z 0);
    try destruct (String.eqb s ""); simpl; naive_solver.
Qed.

Lemma stored_absent (b : gmap string jsval) k :
  b !! k = None → stored (field b k) = CText "".
Proof. intros H. unfold field. by rewrite H. Qed.

Lemma blank_not_proper v : blank_name v = true → proper_name v = false.
Proof. destruct v; simpl; try done. by intros ->. Qed.

Lemma field_insert_ne (b : gmap string jsval) k v key :
  k ≠ key → field (<[k := v]> b) key = field b key.
Proof. intros Hne. unfold field. by rewrite lookup_insert_ne. Qed.

Lemma row_of_optional t b c u k col :
  (k, col) ∈ optional_columns → col (row_of t b c u) = stored (field b k).
Proof.
  intros H. unfold optional_columns in H.
  repeat (apply elem_of_cons in H as [[= -> ->]|H]; [done|]).
  by apply elem_of_nil in H.
Qed.

Lemma proper_name_inv v :
  proper_name v = true → ∃ s, v = JStr s ∧ trim s ≠ "".
Proof.
  destruct v as [| | | |s|]; simpl; try done. intros Hs. exists s.
  split; [done|]. intros Heq. rewrite Heq in Hs. done.
Qed.



(** A row of another tenant, and an id with no row at all, look the same
    to a scoped lookup. *)
Lemma lookup_scoped_foreign rs i r t :
  rs !! i = Some r → tenant_id r ≠ t → lookup_scoped rs i t = None.
Proof. intros Hr Ht. apply lookup_scoped_None. right. by exists r. Qed.

Lemma lookup_scoped_missing rs i t :
  rs !! i = None → lookup_scoped rs i t = None.
Proof. intros Hr. apply lookup_scoped_None. by left. Qed.

Lemma elem_of_tenant_orgs (rs : gmap string Row) t o :
  o ∈ merge_sort name_le
        (org_of <$> filter (λ kv, tenant_id kv.2 = t) (map_to_list rs)) ↔
  rs !! id o = Some (data o) ∧ tenant_id (data o) = t.
Proof.
  rewrite merge_sort_Permutation, list_elem_of_fmap. split.
  - intros ([i r] & -> & Hin). apply list_elem_of_filter in Hin as [Ht Hin].
    apply elem_of_map_to_list in Hin. done.
  - intros [Hr Ht]. exists (id o, data o). split; [by destruct o|].
    apply list_elem_of_filter. split; [done|]. by apply elem_of_map_to_list.
Qed.

Lemma NoDup_tenant_orgs (rs : gmap string Row) t :
  NoDup (merge_sort name_le
           (org_of <$> filter (λ kv, tenant_id kv.2 = t) (map_to_list rs))).
Proof.
  rewrite merge_sort_Permutation. apply NoDup_fmap_2.
  - intros [i r] [j r']. unfold org_of. simpl. by intros [= -> ->].
  - apply NoDup_filter, NoDup_map_to_list.
Qed.

Lemma valid_body_fields b :
  valid_body b = true →
  proper_name (field b "name") = true ∧
  ∀ k, k ∈ optional_columns.*1 → storable (field b k) = true.
Proof.
  unfold valid_body. rewrite andb_true_iff, forallb_forall.
  intros [Hn Hf]. split; [done|]. intros k Hk. apply Hf.
  by apply list_elem_of_In.
Qed.

Lemma fields_valid_body b :
  proper_name (field b "name") = true →
  storable (field b "org_number") = true →
  storable (field b "address") = true →
  storable (field b "city") = true →
  storable (field b "zip") = true →
  storable (field b "phone") = true →
  storable (field b "email") = true →
  storable (field b "website") = true →
  storable (field b "description") = true →
  valid_body b = true.
Proof.
  intros Hn H1 H2 H3 H4 H5 H6 H7 H8. unfold valid_body. rewrite Hn. simpl.
  by rewrite H1, H2, H3, H4, H5, H6, H7, H8.
Qed.

Ltac bound_case H :=
  match goal with
  | |- context [bound (js_or (field ?b ?k) (JStr ""))] =>
      destruct (bound (js_or (field b k) (JStr ""))) eqn:H; simpl; [|done];
      apply bound_Ok in H as [H _]
  end.

Ltac bound_cases :=
  match goal with
  | |- context [bound (js_or (field ?b ?k) (JStr ""))] =>
      destruct (bound (js_or (field b k) (JStr ""))); simpl; [|done]
  end.

Ltac sent := intros [= <-]; simpl; unfold sent_statuses; set_solver.

(** ** Running the handlers *)

Section Service_properties.
Context {L : Libs}.

Lemma name_missing_blank v w :
  blank_name v = true → name_missing v w = (Ok true, w).
Proof.
  destruct v as [| | |z|s|]; simpl; try done. intros Hs.
  unfold name_missing, bind. simpl.
  destruct (String.eqb s "") eqn:Es; simpl; [done|].
  unfold ret. by rewrite Hs.
Qed.

Lemma name_missing_proper v w :
  proper_name v = true → name_missing v w = (Ok false, w).
Proof.
  destruct v as [| | |z|s|]; simpl; try done. intros Hs.
  unfold name_missing, bind. simpl.
  destruct (String.eqb s "") eqn:Es; simpl.
  - apply String.eqb_eq in Es. subst. by vm_compute in Hs.
  - unfold ret. by destruct (String.eqb (trim s) "").
Qed.

Lemma name_missing_Ok_false v w w' :
  name_missing v w = (Ok false, w') → proper_name v = true.
Proof.
  unfold name_missing, bind, call_trim, ret, throw.
  destruct v as [| |[]|z|s|]; simpl; try done.
  - by destruct (Z.eqb z 0).
  - destruct (String.eqb s ""); simpl; [done|].
    destruct (String.eqb (trim s) ""); simpl; [done|done].
Qed.

Lemma name_missing_world v w x w' : name_missing v w = (x, w') → w' = w.
Proof.
  unfold name_missing, bind, call_trim, ret, throw.
  destruct v as [| |[]|z|s|]; simpl; try by intros [= _ <-].
  - destruct (Z.eqb z 0); simpl; by intros [= _ <-].
  - destruct (String.eqb s ""); simpl; by intros [= _ <-].
Qed.

Lemma call_trim_proper v w :
  proper_name v = true →
  call_trim v w = (Ok (match v with JStr s => trim s | _ => "" end), w).
Proof. by destruct v. Qed.

Lemma get_organization_run u i w :
  online w = true →
  get_organization u i w =
    (Ok (match lookup_scoped (rows w) i (tenantId u) with
         | Some o => mkResponse 200 (JOrg (Some o))
         | None => not_found
         end),
     log (ESql (SelectByIdTenant i (tenantId u))) w).
Proof.
  intros Hon. unfold get_organization, bind, select_by_id_tenant.
  rewrite stmt_io_online by done. simpl.
  by destruct (lookup_scoped (rows w) i (tenantId u)).
Qed.

Lemma delete_organization_run u i w :
  online w = true →
  delete_organization u i w =
    match lookup_scoped (rows w) i (tenantId u) with
    | Some _ =>
        (Ok (mkResponse 200 JOkTrue),
         set_rows (delete i (rows w))
           (log (ESql (Delete i (tenantId u)))
              (log (ESql (SelectByIdTenant i (tenantId u))) w)))
    | None => (Ok not_found, log (ESql (SelectByIdTenant i (tenantId u))) w)
    end.
Proof.
  intros Hon. unfold delete_organization, bind, select_by_id_tenant.
  rewrite stmt_io_online by done. simpl.
  destruct (lookup_scoped (rows w) i (tenantId u)) as [o|] eqn:Ho; [|done].
  apply lookup_scoped_Some in Ho as (_ & Hr & Ht).
  unfold delete_org. rewrite stmt_io_online by done. simpl.
  by rewrite Hr, decide_True.
Qed.

Lemma put_organization_absent u i b w :
  online w = true → lookup_scoped (rows w) i (tenantId u) = None →
  put_organization u i b w =
    (Ok not_found, log (ESql (SelectByIdTenant i (tenantId u))) w).
Proof.
  intros Hon Hno. unfold put_organization, bind, select_by_id_tenant.
  rewrite stmt_io_online by done. simpl. by rewrite Hno.
Qed.

Lemma put_organization_blank u i b w o :
  online w = true → lookup_scoped (rows w) i (tenantId u) = Some o →
  blank_name (field b "name") = true →
  put_organization u i b w =
    (Ok (mkResponse 400 (JError "Namn krävs")),
     log (ESql (SelectByIdTenant i (tenantId u))) w).
Proof.
  intros Hon Ho Hb. unfold put_organization, bind, select_by_id_tenant.
  rewrite stmt_io_online by done. simpl. rewrite Ho.
  by rewrite name_missing_blank.
Qed.

Lemma put_organization_valid u i b w r :
  online w = true → rows w !! i = Some r → tenant_id r = tenantId u →
  valid_body b = true →
  let r' := row_of (tenant_id r) b (created_at r) (Some (clock w)) in
  put_organization u i b w =
    (Ok (mkResponse 200 (JOrg (Some (mkOrg i r')))),
     log (ESql (SelectById i))
       (set_rows (<[i := r']> (rows w))
          (log (ESql (Update i (tenantId u)))
             (log (ESql (SelectByIdTenant i (tenantId u))) w)))).
Proof.
  intros Hon Hr Ht Hv r'. apply valid_body_fields in Hv as [Hn Hf].
  unfold put_organization, bind, select_by_id_tenant.
  rewrite stmt_io_online by done. simpl.
  rewrite <- Ht, (lookup_scoped_own _ _ _ Hr).
  rewrite name_missing_proper, call_trim_proper by done.
  unfold bind_param.
  rewrite !(proj1 (bound_storable _)) by (apply Hf; set_solver).
  unfold update_org. rewrite stmt_io_online by done. simpl.
  unfold select_by_id. rewrite stmt_io_online by done. simpl.
  assert (alter (λ r0 : Row,
            if decide (tenant_id r0 = tenant_id r)
            then mkRow (tenant_id r0)
                   (match field b "name" with JStr s => trim s | _ => "" end)
                   (stored (field b "org_number")) (stored (field b "address"))
                   (stored (field b "city")) (stored (field b "zip"))
                   (stored (field b "phone")) (stored (field b "email"))
                   (stored (field b "website")) (stored (field b "description"))
                   (created_at r0) (Some (clock w))
            else r0) i (rows w) = <[i := r']> (rows w)) as ->.
  { apply map_eq. intros j. rewrite lookup_alter, lookup_insert.
    case_decide; [|done]. subst j. rewrite Hr. simpl. by rewrite decide_True. }
  by rewrite lookup_insert_eq.
Qed.

Lemma put_organization_200 u i b w resp :
  (put_organization u i b w).1 = Ok resp → status resp = 200 →
  online w = true ∧ valid_body b = true ∧
  ∃ r, rows w !! i = Some r ∧ tenant_id r = tenantId u.
Proof.
  destruct (online w) eqn:Hon.
  2:{ unfold put_organization, bind, select_by_id_tenant.
      by rewrite stmt_io_offline. }
  destruct (lookup_scoped (rows w) i (tenantId u)) as [o|] eqn:Ho.
  2:{ rewrite put_organization_absent by done. simpl. by intros [= <-]. }
  intros Hok Hst. split; [done|].
  apply lookup_scoped_Some in Ho as (_ & Hr & Ht). split; [|by eauto].
  revert Hok. unfold put_organization, bind, select_by_id_tenant.
  rewrite stmt_io_online by done. simpl.
  rewrite <- Ht, (lookup_scoped_own _ _ _ Hr).
  destruct (name_missing _ _) as [[[]|e] w1] eqn:Hnm; simpl.
  { intros [= <-]. done. }
  2:{ done. }
  pose proof (name_missing_world _ _ _ _ Hnm) as ->.
  apply name_missing_Ok_false in Hnm.
  rewrite call_trim_proper by done. unfold bind_param.
  bound_case H1. bound_case H2. bound_case H3. bound_case H4.
  bound_case H5. bound_case H6. bound_case H7. bound_case H8.
  intros _. by apply fields_valid_body.
Qed.

Lemma post_organizations_blank u b w :
  blank_name (field b "name") = true →
  post_organizations u b w = (Ok (mkResponse 400 (JError "Namn krävs")), w).
Proof.
  intros Hb. unfold post_organizations, bind. by rewrite name_missing_blank.
Qed.

Lemma post_organizations_valid u b w :
  online w = true → valid_body b = true →
  rows w !! uuidv4_nth (uuid_calls w) = None →
  let i := uuidv4_nth (uuid_calls w) in
  let r := row_of (tenantId u) b (clock w) None in
  post_organizations u b w =
    (Ok (mkResponse 201 (JOrg (Some (mkOrg i r)))),
     log (ESql (SelectById i))
       (set_rows (<[i := r]> (rows w))
          (log (ESql (Insert i))
             (log EUuid
                (mkWorld (rows w) (online w) (clock w) (S (uuid_calls w))
                   (trace w)))))).
Proof.
  intros Hon Hv Hfresh i r. apply valid_body_fields in Hv as [Hn Hf].
  unfold post_organizations, bind.
  rewrite name_missing_proper by done. unfold uuidv4.
  rewrite call_trim_proper by done. unfold bind_param.
  rewrite !(proj1 (bound_storable _)) by (apply Hf; set_solver).
  unfold insert_org. rewrite stmt_io_online by done. simpl.
  subst i r. rewrite Hfresh.
  unfold select_by_id. rewrite stmt_io_online by done. simpl.
  by rewrite lookup_insert_eq.
Qed.


Lemma get_organizations_run u w :
  online w = true →
  get_organizations u w =
    (Ok (mkResponse 200
           (JOrganizations
              (merge_sort name_le
                 (org_of <$> filter (λ kv, tenant_id kv.2 = tenantId u)
                               (map_to_list (rows w)))))),
     log (ESql (SelectByTenant (tenantId u))) w).
Proof.
  intros Hon. unfold get_organizations, bind, select_by_tenant.
  by rewrite stmt_io_online.
Qed.



(** *** Rows that are absent stay absent *)

Lemma get_organizations_rows u w :
  rows (after (get_organizations u) w) = rows w.
Proof.
  unfold after, get_organizations, bind, select_by_tenant, stmt_io. simpl.
  by destruct (online w).
Qed.

Lemma get_organization_rows u i w :
  rows (after (get_organization u i) w) = rows w.
Proof.
  unfold after, get_organization, bind, select_by_id_tenant, stmt_io. simpl.
  destruct (online w); [|done]. by destruct (lookup_scoped _ _ _).
Qed.

Lemma delete_organization_absent u i w j :
  rows w !! j = None → rows (after (delete_organization u i) w) !! j = None.
Proof.
  intros Hj. unfold after.
  destruct (online w) eqn:Hon.
  - rewrite delete_organization_run by done.
    destruct (lookup_scoped _ _ _); simpl; [|done].
    by apply lookup_delete_None; right.
  - unfold delete_organization, bind, select_by_id_tenant.
    by rewrite stmt_io_offline.
Qed.

Lemma put_organization_absent_stays u i b w j :
  rows w !! j = None → rows (after (put_organization u i b) w) !! j = None.
Proof.
  intros Hj. unfold after, put_organization, bind, select_by_id_tenant.
  destruct (online w) eqn:Hon; [|by rewrite stmt_io_offline].
  rewrite stmt_io_online by done. simpl.
  destruct (lookup_scoped _ _ _); simpl; [|done].
  destruct (name_missing _ _) as [[[]|e] w1] eqn:Hnm;
    pose proof (name_missing_world _ _ _ _ Hnm) as ->; simpl; try done.
  apply name_missing_Ok_false in Hnm.
  rewrite call_trim_proper by done. unfold bind_param.
  repeat bound_cases. unfold update_org, select_by_id, stmt_io. simpl.
  repeat (rewrite Hon; simpl).
  by rewrite lookup_alter_None.
Qed.

Lemma post_organizations_absent_stays u b w j :
  rows w !! j = None → uuidv4_nth (uuid_calls w) ≠ j →
  rows (after (post_organizations u b) w) !! j = None.
Proof.
  intros Hj Hne. unfold after, post_organizations, bind.
  destruct (name_missing _ _) as [[[]|e] w1] eqn:Hnm;
    pose proof (name_missing_world _ _ _ _ Hnm) as ->; simpl; try done.
  apply name_missing_Ok_false in Hnm.
  rewrite call_trim_proper by done. unfold bind_param.
  repeat bound_cases. unfold insert_org, select_by_id, stmt_io. simpl.
  destruct (online w) eqn:Hon; [|done].
  destruct (rows w !! uuidv4_nth (uuid_calls w)); simpl; [done|].
  repeat (rewrite Hon; simpl). by rewrite lookup_insert_ne.
Qed.

Lemma handler_absent_stays r u w j :
  rows w !! j = None → uuidv4_nth (uuid_calls w) ≠ j →
  rows (after (handler r u) w) !! j = None.
Proof.
  intros Hj Hne. destruct r as [|i|b|i b|i]; simpl.
  - by rewrite get_organizations_rows.
  - by rewrite get_organization_rows.
  - by apply post_organizations_absent_stays.
  - by apply put_organization_absent_stays.
  - by apply delete_organization_absent.
Qed.

(** *** The middleware *)

Lemma auth_accepts h u next w :
  h ≠ "" → jwt_verify (replace_first "Bearer " "" h) JWT_SECRET = Some u →
  auth (Some h) next w = next u (log (EVerify (replace_first "Bearer " "" h)) w).
Proof.
  intros Hh Hv. unfold auth, bind, verify. simpl.
  apply String.eqb_neq in Hh. rewrite Hh. simpl. by rewrite Hv.
Qed.

Lemma serve_absent_stays req w j :
  rows w !! j = None → uuidv4_nth (uuid_calls w) ≠ j →
  rows (serve req w).2 !! j = None.
Proof.
  intros Hj Hne. unfold serve, auth, bind, verify, send, ret.
  destruct (authorization req) as [h|]; simpl; [|done].
  destruct (String.eqb h ""); simpl; [done|].
  destruct (jwt_verify _ _) as [u|]; simpl; [|done].
  pose proof (handler_absent_stays (target req) u
                (log (EVerify (replace_first "Bearer " "" h)) w) j Hj Hne) as H.
  unfold after in H. by destruct (handler _ _ _) as [[]].
Qed.

Lemma handler_status r u w resp :
  (handler r u w).1 = Ok resp → status resp ∈ sent_statuses.
Proof.
  destruct r as [|i|b|i b|i]; simpl.
  - unfold get_organizations, bind, select_by_tenant, stmt_io. simpl.
    destruct (online w); simpl; [sent|done].
  - unfold get_organization, bind, select_by_id_tenant, stmt_io. simpl.
    destruct (online w); simpl; [|done].
    destruct (lookup_scoped _ _ _); simpl; sent.
  - unfold post_organizations, bind.
    destruct (name_missing _ _) as [[[]|e] w1] eqn:Hnm;
      pose proof (name_missing_world _ _ _ _ Hnm) as ->; simpl;
      [sent| |done].
    apply name_missing_Ok_false in Hnm.
    rewrite call_trim_proper by done. unfold bind_param.
    repeat bound_cases. unfold insert_org, select_by_id, stmt_io. simpl.
    destruct (online w) eqn:Hon; [|done].
    destruct (rows w !! uuidv4_nth (uuid_calls w)); simpl; [done|].
    repeat (rewrite Hon; simpl). sent.
  - unfold put_organization, bind, select_by_id_tenant.
    destruct (online w) eqn:Hon; [|by rewrite stmt_io_offline].
    rewrite stmt_io_online by done. simpl.
    destruct (lookup_scoped _ _ _); simpl; [|sent].
    destruct (name_missing _ _) as [[[]|e] w1] eqn:Hnm;
      pose proof (name_missing_world _ _ _ _ Hnm) as ->; simpl;
      [sent| |done].
    apply name_missing_Ok_false in Hnm.
    rewrite call_trim_proper by done. unfold bind_param.
    repeat bound_cases. unfold update_org, select_by_id, stmt_io. simpl.
    repeat (rewrite Hon; simpl). sent.
  - destruct (online w) eqn:Hon.
    + rewrite delete_organization_run by done.
      destruct (lookup_scoped _ _ _); simpl; sent.
    + unfold delete_organization, bind, select_by_id_tenant.
      by rewrite stmt_io_offline.
Qed.

(** The service itself never sends a status outside this list: no route
    answers 500. *)
Lemma serve_status req w resp :
  (serve req w).1 = Responded resp → status resp ∈ sent_statuses.
Proof.
  unfold serve, auth, bind, verify, send, ret.
  destruct (authorization req) as [h|]; simpl; [|sent].
  destruct (String.eqb h ""); simpl; [sent|].
  destruct (jwt_verify _ _) as [u|]; simpl; [|sent].
  destruct (handler _ _ _) as [[r|e] w'] eqn:Hh; simpl; [|done].
  intros [= <-]. eapply handler_status. by rewrite Hh.
Qed.

(** ** The claims *)

(** C1. Tenant isolation. A row [r] with id [i] that belongs to tenant
    [u1] is in the store, and [u2] is another tenant. Then the list [u2]
    gets contains no record with that id (and only records of [u2]);
    get, update and delete by [u2] on [i] answer 404 "Not found" and leave
    the store as it was; and each of these answers is equal to the answer
    [u2] gets, in any store, for an id that has no row at all. *)
Theorem tenant_isolation (u1 u2 : user) (w : World) (i : string) (r : Row)
    (b : gmap string jsval) :
  tenantId u1 ≠ tenantId u2 →
  online w = true →
  rows w !! i = Some r → tenant_id r = tenantId u1 →
  (∃ orgs,
      (get_organizations u2 w).1 = Ok (mkResponse 200 (JOrganizations orgs)) ∧
      ∀ o, o ∈ orgs → id o ≠ i ∧ tenant_id (data o) = tenantId u2) ∧
  (get_organization u2 i w).1 = Ok not_found ∧
  (put_organization u2 i b w).1 = Ok not_found ∧
  (delete_organization u2 i w).1 = Ok not_found ∧
  rows (after (put_organization u2 i b) w) = rows w ∧
  rows (after (delete_organization u2 i) w) = rows w ∧
  (∀ w0 j, online w0 = true → rows w0 !! j = None →
     (get_organization u2 j w0).1 = (get_organization u2 i w).1 ∧
     (put_organization u2 j b w0).1 = (put_organization u2 i b w).1 ∧
     (delete_organization u2 j w0).1 = (delete_organization u2 i w).1).
Proof.
  intros Hne Hon Hr Ht.
  assert (lookup_scoped (rows w) i (tenantId u2) = None) as Hno.
  { apply lookup_scoped_foreign with r; congruence. }
  split.
  { eexists. rewrite get_organizations_run by done. split; [done|].
    intros o Ho. apply elem_of_tenant_orgs in Ho as [Hro Hto].
    split; [|done]. intros Hid. rewrite Hid in Hro. congruence. }
  unfold after.
  rewrite get_organization_run, put_organization_absent,
    delete_organization_run, Hno by done.
  repeat (split; [done|]).
  intros w0 j Hon0 Hj. apply (lookup_scoped_missing _ _ (tenantId u2)) in Hj.
  by rewrite get_organization_run, put_organization_absent,
    delete_organization_run, Hj by done.
Qed.

(** C2, as amended. For a body whose name is absent, null, empty or trims
    to the empty string: create answers 400 and leaves the world as it
    was, in every world; update answers 400 and leaves the rows as they
    were whenever the store is available and the (id, tenant) row exists.
    Conversely, for a body whose name is a string that does not trim to
    the empty string, neither create nor update ever answers 400. *)
Theorem name_validation (u : user) (b : gmap string jsval) :
  (blank_name (field b "name") = true →
     (∀ w, post_organizations u b w = (Ok bad_request, w)) ∧
     (∀ w i o, online w = true →
        lookup_scoped (rows w) i (tenantId u) = Some o →
        (put_organization u i b w).1 = Ok bad_request ∧
        rows (after (put_organization u i b) w) = rows w)) ∧
  (proper_name (field b "name") = true →
     ∀ w i resp,
       (post_organizations u b w).1 = Ok resp ∨
       (put_organization u i b w).1 = Ok resp →
       status resp ≠ 400).
Proof.
  split.
  - intros Hb. split.
    + intros w. by apply post_organizations_blank.
    + intros w i o Hon Ho. unfold after.
      by rewrite (put_organization_blank u i b w o).
  - intros Hn w i resp [Hok|Hok] Hst; revert Hok.
    + unfold post_organizations, bind.
      rewrite name_missing_proper by done. unfold uuidv4.
      rewrite call_trim_proper by done. unfold bind_param.
      repeat bound_cases. unfold insert_org, select_by_id, stmt_io. simpl.
      destruct (online w) eqn:Hon; [|done].
      destruct (rows w !! uuidv4_nth (uuid_calls w)); simpl; [done|].
      repeat (rewrite Hon; simpl). intros [= <-]. done.
    + unfold put_organization, bind, select_by_id_tenant.
      destruct (online w) eqn:Hon; [|by rewrite stmt_io_offline].
      rewrite stmt_io_online by done. simpl.
      destruct (lookup_scoped _ _ _); simpl; [|intros [= <-]; by simpl in Hst].
      rewrite name_missing_proper by done.
      rewrite call_trim_proper by done. unfold bind_param.
      repeat bound_cases. unfold update_org, select_by_id, stmt_io. simpl.
      repeat (rewrite Hon; simpl). intros [= <-]. done.
Qed.


(** C4. Round trip. The store is available, the body is valid and the
    uuid drawn is not yet a key of the table. Then create answers 201
    with a record [o], and a get under the same tenant with [o]'s id,
    whatever the clock shows by then, answers 200 with the same record.
    [o] has [updated_at] null, the caller's tenant, the time of the
    create as [created_at], the empty string in every optional column
    whose key the body lacks, and as id the uuid just drawn, which no row
    had before. *)
Theorem create_get_roundtrip (u : user) (b : gmap string jsval) (w : World)
    (later : string) :
  online w = true → valid_body b = true →
  rows w !! uuidv4_nth (uuid_calls w) = None →
  let w1 := set_clock later (after (post_organizations u b) w) in
  ∃ o,
    (post_organizations u b w).1 = Ok (mkResponse 201 (JOrg (Some o))) ∧
    (get_organization u (id o) w1).1 = Ok (mkResponse 200 (JOrg (Some o))) ∧
    updated_at (data o) = None ∧
    tenant_id (data o) = tenantId u ∧
    created_at (data o) = clock w ∧
    (∀ k col, (k, col) ∈ optional_columns → b !! k = None →
       col (data o) = CText "") ∧
    id o = uuidv4_nth (uuid_calls w) ∧
    rows w !! id o = None.
Proof.
  intros Hon Hv Hfresh w1. subst w1. unfold after.
  rewrite (post_organizations_valid u b w) by done. simpl.
  eexists. split; [done|]. simpl. split.
  { rewrite get_organization_run by done. simpl.
    by rewrite (lookup_scoped_own _ _
                  (row_of (tenantId u) b (clock w) None)
                  (lookup_insert_eq _ _ _)). }
  repeat (split; [done|]). split; [|done].
  intros k col Hk Hnone. rewrite (row_of_optional _ _ _ _ k col Hk).
  by apply stored_absent.
Qed.

(** C5. Update is idempotent in effect. The store is available, the row
    at [i] is the caller's and the body is valid. The update answers 200
    and leaves a row [r1]; the same update applied again, at a later
    time, answers 200 and leaves the row [r1] with only [updated_at]
    moved to the later time; no other row changes. *)
Theorem update_idempotent (u : user) (i : string) (b : gmap string jsval)
    (w : World) (r : Row) (later : string) :
  online w = true → rows w !! i = Some r → tenant_id r = tenantId u →
  valid_body b = true →
  let w1 := set_clock later (after (put_organization u i b) w) in
  let w2 := after (put_organization u i b) w1 in
  ∃ r1,
    let r2 := mkRow (tenant_id r1) (name r1) (org_number r1) (address r1)
                (city r1) (zip r1) (phone r1) (email r1) (website r1)
                (description r1) (created_at r1) (Some later) in
    (put_organization u i b w).1 =
      Ok (mkResponse 200 (JOrg (Some (mkOrg i r1)))) ∧
    rows w1 !! i = Some r1 ∧
    updated_at r1 = Some (clock w) ∧
    (put_organization u i b w1).1 =
      Ok (mkResponse 200 (JOrg (Some (mkOrg i r2)))) ∧
    rows w2 !! i = Some r2 ∧
    (∀ j, j ≠ i → rows w2 !! j = rows w1 !! j).
Proof.
  intros Hon Hr Ht Hv w1 w2. subst w2 w1. unfold after.
  rewrite (put_organization_valid u i b w r) by done. simpl.
  set (r1 := row_of (tenant_id r) b (created_at r) (Some (clock w))).
  set (w1 := set_clock later _).
  assert (online w1 = true) as Hon1 by done.
  assert (rows w1 !! i = Some r1) as Hr1 by apply lookup_insert_eq.
  assert (tenant_id r1 = tenantId u) as Ht1 by done.
  exists r1. rewrite (put_organization_valid u i b w1 r1 Hon1 Hr1 Ht1 Hv).
  simpl. repeat (split; [done|]). split; [apply lookup_insert_eq|].
  intros j Hj. by rewrite !lookup_insert_ne.
Qed.

(** C6. With the store available: a delete of a row of the caller's
    tenant answers 200 with [{ok: true}] and removes the row; a delete of
    an id with no row of the caller's tenant answers 404. Either way, in
    the world the delete leaves, get, update and delete of that id under
    the same tenant answer 404 and change no row. The removal lasts: in
    any world where the id has no row, these three answer 404, and no
    request gives the id a row again unless [uuidv4] draws that very id
    for a create. *)
Theorem delete_then_not_found (u : user) (i : string) (w : World)
    (b : gmap string jsval) :
  online w = true →
  let w' := after (delete_organization u i) w in
  (∀ o, lookup_scoped (rows w) i (tenantId u) = Some o →
        (delete_organization u i w).1 = Ok (mkResponse 200 JOkTrue) ∧
        rows w' = delete i (rows w) ∧ rows w' !! i = None) ∧
  (lookup_scoped (rows w) i (tenantId u) = None →
        (delete_organization u i w).1 = Ok not_found ∧ rows w' = rows w) ∧
  (get_organization u i w').1 = Ok not_found ∧
  (put_organization u i b w').1 = Ok not_found ∧
  (delete_organization u i w').1 = Ok not_found ∧
  rows (after (put_organization u i b) w') = rows w' ∧
  rows (after (delete_organization u i) w') = rows w' ∧
  (∀ w2, online w2 = true → rows w2 !! i = None →
     (get_organization u i w2).1 = Ok not_found ∧
     (put_organization u i b w2).1 = Ok not_found ∧
     (delete_organization u i w2).1 = Ok not_found) ∧
  (∀ req w2, rows w2 !! i = None → uuidv4_nth (uuid_calls w2) ≠ i →
     rows (serve req w2).2 !! i = None).
Proof.
  intros Hon w'.
  assert (online w' = true ∧ lookup_scoped (rows w') i (tenantId u) = None)
    as [Hon' Hno'].
  { subst w'. unfold after. rewrite delete_organization_run by done.
    destruct (lookup_scoped (rows w) i (tenantId u)) eqn:Ho; simpl.
    - split; [done|]. apply lookup_scoped_missing, lookup_delete_eq.
    - done. }
  split.
  { intros o Ho. subst w'. unfold after.
    rewrite delete_organization_run, Ho by done. simpl.
    split; [done|]. split; [done|]. apply lookup_delete_eq. }
  split.
  { intros Ho. subst w'. unfold after.
    by rewrite delete_organization_run, Ho by done. }
  unfold after.
  rewrite get_organization_run, put_organization_absent,
    delete_organization_run, Hno' by done.
  repeat (split; [done|]). split.
  - intros w2 Hon2 Hi. apply (lookup_scoped_missing _ _ (tenantId u)) in Hi.
    by rewrite get_organization_run, put_organization_absent,
      delete_organization_run, Hi by done.
  - intros req w2. apply serve_absent_stays.
Qed.

(** C7. With the store available, the list route answers 200 with a
    sequence that is sorted by name in ascending byte order, has no
    record twice, and contains exactly the rows of the caller's tenant;
    it is the empty sequence when the tenant has no row; the store is
    left as it was. *)
Theorem list_sorted_by_name (u : user) (w : World) :
  online w = true →
  ∃ orgs,
    (get_organizations u w).1 = Ok (mkResponse 200 (JOrganizations orgs)) ∧
    StronglySorted name_le orgs ∧
    NoDup orgs ∧
    (∀ o, o ∈ orgs ↔
          rows w !! id o = Some (data o) ∧ tenant_id (data o) = tenantId u) ∧
    ((∀ j r, rows w !! j = Some r → tenant_id r ≠ tenantId u) → orgs = []) ∧
    rows (after (get_organizations u) w) = rows w.
Proof.
  intros Hon. eexists. unfold after. rewrite get_organizations_run by done.
  split; [done|]. split; [apply StronglySorted_merge_sort; apply _|].
  split; [apply NoDup_tenant_orgs|]. split; [apply elem_of_tenant_orgs|].
  split; [|done]. intros Hnone.
  destruct (merge_sort _ _) as [|o l] eqn:Hl; [done|].
  assert (o ∈ o :: l) as Ho by left. rewrite <- Hl in Ho.
  apply elem_of_tenant_orgs in Ho as [Hr Ht]. by destruct (Hnone _ _ Hr).
Qed.

(** C8. Authentication. If the request has no [Authorization] header, or
    has one whose token [jwt.verify] rejects, the answer is 401 with an
    error body, whatever the route. The rows are left as they were, the
    trace gains no SQL statement, and it gains a token verification only
    when a non-empty header was present: with the header missing no token
    is decoded. *)
Theorem unauthenticated_rejected (req : request) (w : World) :
  (∀ h, authorization req = Some h →
        jwt_verify (replace_first "Bearer " "" h) JWT_SECRET = None) →
  ∃ msg,
    (serve req w).1 = Responded (mkResponse 401 (JError msg)) ∧
    rows (serve req w).2 = rows w ∧
    trace (serve req w).2 =
      (trace w ++
       match authorization req with
       | None => []
       | Some h => if truthy (JStr h)
                   then [EVerify (replace_first "Bearer " "" h)] else []
       end)%list ∧
    (∀ q, ESql q ∈ trace (serve req w).2 → ESql q ∈ trace w).
Proof.
  intros Hbad. unfold serve, auth, bind, verify, send, ret.
  destruct (authorization req) as [h|]; simpl.
  - destruct (String.eqb h ""); simpl.
    + eexists. rewrite app_nil_r. done.
    + rewrite (Hbad h eq_refl). simpl. eexists. repeat (split; [done|]).
      intros q Hq. apply elem_of_app in Hq as [Hq|Hq]; [done|].
      by apply list_elem_of_singleton in Hq.
  - eexists. rewrite app_nil_r. done.
Qed.


(** C10. Precedence of errors in update. With the store available and no
    row for the (id, tenant) pair, update answers 404 whatever the body
    is, a blank name included; it has issued the scoped SELECT and
    nothing else, so the name is not looked at and no row changes. *)
Theorem put_not_found_before_validation (u : user) (i : string)
    (b : gmap string jsval) (w : World) :
  online w = true →
  lookup_scoped (rows w) i (tenantId u) = None →
  put_organization u i b w =
    (Ok not_found, log (ESql (SelectByIdTenant i (tenantId u))) w).
Proof. apply put_organization_absent. Qed.

End Service_properties.

(** * Further properties *)

(** ** Trimming twice *)

Lemma trim_start_clean (l : list ascii) : clean_head l → trim_start l = l.
Proof.
  destruct l as [|a [|b [|c l]]]; simpl; try done.
  - by intros [-> _].
  - by intros [-> [-> _]].
  - by intros [-> [-> ->]].
Qed.

Lemma trim_end_rev_clean (l : list ascii) : clean_last l → trim_end_rev l = l.
Proof.
  destruct l as [|a [|b [|c l]]]; simpl; try done.
  - by intros [-> _].
  - by intros [-> [-> _]].
  - by intros [-> [-> ->]].
Qed.

Ltac clean_done :=
  split;
  [ simpl; repeat match goal with H : _ = false |- _ => rewrite H end; done
  | by exists 0 ].

Lemma trim_start_spec (n : nat) (l : list ascii) :
  (List.length l ≤ n)%nat →
  clean_head (trim_start l) ∧ ∃ k, trim_start l = drop k l.
Proof.
  revert l. induction n as [|n IH]; intros l Hn.
  { destruct l; simpl in *; [|lia]. split; [done|]. by exists 0. }
  destruct l as [|a l1]; [split; [done|by exists 0]|].
  simpl in Hn. simpl. destruct (is_ws1 a) eqn:Ha.
  { destruct (IH l1 ltac:(lia)) as [Hc [k Hk]]. split; [done|].
    exists (S k). by rewrite Hk. }
  destruct l1 as [|b l2]; [clean_done|].
  simpl in Hn. destruct (is_ws2 a b) eqn:Hb.
  { destruct (IH l2 ltac:(lia)) as [Hc [k Hk]]. split; [done|].
    exists (S (S k)). by rewrite Hk. }
  destruct l2 as [|c l3]; [clean_done|].
  simpl in Hn. destruct (is_ws3 a b c) eqn:Hc3.
  { destruct (IH l3 ltac:(lia)) as [Hc [k Hk]]. split; [done|].
    exists (S (S (S k))). by rewrite Hk. }
  clean_done.
Qed.

Lemma trim_end_rev_spec (n : nat) (l : list ascii) :
  (List.length l ≤ n)%nat →
  clean_last (trim_end_rev l) ∧ ∃ k, trim_end_rev l = drop k l.
Proof.
  revert l. induction n as [|n IH]; intros l Hn.
  { destruct l; simpl in *; [|lia]. split; [done|]. by exists 0. }
  destruct l as [|a l1]; [split; [done|by exists 0]|].
  simpl in Hn. simpl. destruct (is_ws1 a) eqn:Ha.
  { destruct (IH l1 ltac:(lia)) as [Hc [k Hk]]. split; [done|].
    exists (S k). by rewrite Hk. }
  destruct l1 as [|b l2]; [clean_done|].
  simpl in Hn. destruct (is_ws2 b a) eqn:Hb.
  { destruct (IH l2 ltac:(lia)) as [Hc [k Hk]]. split; [done|].
    exists (S (S k)). by rewrite Hk. }
  destruct l2 as [|c l3]; [clean_done|].
  simpl in Hn. destruct (is_ws3 c b a) eqn:Hc3.
  { destruct (IH l3 ltac:(lia)) as [Hc [k Hk]]. split; [done|].
    exists (S (S (S k))). by rewrite Hk. }
  clean_done.
Qed.

Lemma clean_head_take (m : nat) (l : list ascii) :
  clean_head l → clean_head (take m l).
Proof.
  destruct l as [|a [|b [|c l]]], m as [|[|[|m]]]; simpl; tauto.
Qed.

Lemma trimmed_bytes_clean (l : list ascii) :
  clean_head (trimmed_bytes l) ∧ clean_last (rev (trimmed_bytes l)).
Proof.
  unfold trimmed_bytes.
  destruct (trim_start_spec (List.length l) l (le_n _)) as [Hh _].
  set (p := trim_start l) in *.
  destruct (trim_end_rev_spec (List.length (rev p)) (rev p) (le_n _))
    as [Hl [k Hk]].
  split.
  - rewrite Hk, skipn_rev, rev_involutive. by apply clean_head_take.
  - by rewrite rev_involutive.
Qed.

Lemma trim_idempotent (s : string) : trim (trim s) = trim s.
Proof.
  unfold trim. rewrite list_ascii_of_string_of_list_ascii. f_equal.
  fold (trimmed_bytes (list_ascii_of_string s)).
  destruct (trimmed_bytes_clean (list_ascii_of_string s)) as [Hh Hl].
  rewrite (trim_start_clean _ Hh), (trim_end_rev_clean _ Hl).
  apply rev_involutive.
Qed.

(** ** What a request can do to the table *)

Section Cases.
Context {L : Libs}.

(** *** What a handler can do to the table *)

Lemma post_organizations_cases u b w :
  rows (after (post_organizations u b) w) = rows w ∨
  (online w = true ∧ valid_body b = true ∧
   rows w !! uuidv4_nth (uuid_calls w) = None).
Proof.
  unfold after, post_organizations, bind.
  destruct (name_missing _ _) as [[[]|e] w1] eqn:Hnm;
    pose proof (name_missing_world _ _ _ _ Hnm) as ->; simpl;
    [by left| |by left].
  apply name_missing_Ok_false in Hnm.
  rewrite call_trim_proper by done. unfold bind_param.
  destruct (bound (js_or (field b "org_number") _)) eqn:H1; simpl;
    [apply bound_Ok in H1 as [H1 _]|by left].
  destruct (bound (js_or (field b "address") _)) eqn:H2; simpl;
    [apply bound_Ok in H2 as [H2 _]|by left].
  destruct (bound (js_or (field b "city") _)) eqn:H3; simpl;
    [apply bound_Ok in H3 as [H3 _]|by left].
  destruct (bound (js_or (field b "zip") _)) eqn:H4; simpl;
    [apply bound_Ok in H4 as [H4 _]|by left].
  destruct (bound (js_or (field b "phone") _)) eqn:H5; simpl;
    [apply bound_Ok in H5 as [H5 _]|by left].
  destruct (bound (js_or (field b "email") _)) eqn:H6; simpl;
    [apply bound_Ok in H6 as [H6 _]|by left].
  destruct (bound (js_or (field b "website") _)) eqn:H7; simpl;
    [apply bound_Ok in H7 as [H7 _]|by left].
  destruct (bound (js_or (field b "description") _)) eqn:H8; simpl;
    [apply bound_Ok in H8 as [H8 _]|by left].
  unfold insert_org, select_by_id, stmt_io. simpl.
  destruct (online w) eqn:Hon; [|by left].
  destruct (rows w !! uuidv4_nth (uuid_calls w)) eqn:Hfresh; simpl;
    [by left|].
  right. split; [done|]. split; [|done]. by apply fields_valid_body.
Qed.

Lemma put_organization_cases u i b w :
  rows (after (put_organization u i b) w) = rows w ∨
  (online w = true ∧ valid_body b = true ∧
   ∃ r, rows w !! i = Some r ∧ tenant_id r = tenantId u).
Proof.
  unfold after, put_organization, bind, select_by_id_tenant.
  destruct (online w) eqn:Hon; [|left; by rewrite stmt_io_offline].
  rewrite stmt_io_online by done. simpl.
  destruct (lookup_scoped _ _ _) as [o|] eqn:Ho; simpl; [|by left].
  apply lookup_scoped_Some in Ho as (_ & Hr & Ht).
  destruct (name_missing _ _) as [[[]|e] w1] eqn:Hnm;
    pose proof (name_missing_world _ _ _ _ Hnm) as ->; simpl;
    [by left| |by left].
  apply name_missing_Ok_false in Hnm.
  rewrite call_trim_proper by done. unfold bind_param.
  destruct (bound (js_or (field b "org_number") _)) eqn:H1; simpl;
    [apply bound_Ok in H1 as [H1 _]|by left].
  destruct (bound (js_or (field b "address") _)) eqn:H2; simpl;
    [apply bound_Ok in H2 as [H2 _]|by left].
  destruct (bound (js_or (field b "city") _)) eqn:H3; simpl;
    [apply bound_Ok in H3 as [H3 _]|by left].
  destruct (bound (js_or (field b "zip") _)) eqn:H4; simpl;
    [apply bound_Ok in H4 as [H4 _]|by left].
  destruct (bound (js_or (field b "phone") _)) eqn:H5; simpl;
    [apply bound_Ok in H5 as [H5 _]|by left].
  destruct (bound (js_or (field b "email") _)) eqn:H6; simpl;
    [apply bound_Ok in H6 as [H6 _]|by left].
  destruct (bound (js_or (field b "website") _)) eqn:H7; simpl;
    [apply bound_Ok in H7 as [H7 _]|by left].
  destruct (bound (js_or (field b "description") _)) eqn:H8; simpl;
    [apply bound_Ok in H8 as [H8 _]|by left].
  right. split; [done|]. split; [by apply fields_valid_body|]. by eauto.
Qed.

Lemma valid_body_trimmed_name b t c x :
  valid_body b = true → trimmed_name (row_of t b c x).
Proof.
  intros Hv. apply valid_body_fields in Hv as [Hn _].
  apply proper_name_inv in Hn as (s & Hs & Hne).
  unfold trimmed_name, row_of. simpl. rewrite Hs.
  split; [done|apply trim_idempotent].
Qed.

(** The rows after a handler: those before, or those before with the one
    write of a create that answered 201, or of an update or a delete that
    answered 200. *)
Lemma handler_table r u w :
  rows (after (handler r u) w) = rows w ∨
  (∃ b, r = POST_organizations b ∧ valid_body b = true ∧
        rows w !! uuidv4_nth (uuid_calls w) = None ∧
        (handler r u w).1 =
          Ok (mkResponse 201 (JOrg (Some (mkOrg (uuidv4_nth (uuid_calls w))
                (row_of (tenantId u) b (clock w) None))))) ∧
        rows (after (handler r u) w) =
          <[uuidv4_nth (uuid_calls w) :=
              row_of (tenantId u) b (clock w) None]> (rows w)) ∨
  (∃ i b r0, r = PUT_organization i b ∧ valid_body b = true ∧
        rows w !! i = Some r0 ∧ tenant_id r0 = tenantId u ∧
        (handler r u w).1 =
          Ok (mkResponse 200 (JOrg (Some (mkOrg i
                (row_of (tenant_id r0) b (created_at r0)
                   (Some (clock w))))))) ∧
        rows (after (handler r u) w) =
          <[i := row_of (tenant_id r0) b (created_at r0) (Some (clock w))]>
            (rows w)) ∨
  (∃ i r0, r = DELETE_organization i ∧
        rows w !! i = Some r0 ∧ tenant_id r0 = tenantId u ∧
        (handler r u w).1 = Ok (mkResponse 200 JOkTrue) ∧
        rows (after (handler r u) w) = delete i (rows w)).
Proof.
  destruct r as [|i|b|i b|i]; simpl.
  - left. apply get_organizations_rows.
  - left. apply get_organization_rows.
  - destruct (post_organizations_cases u b w) as [?|(Hon & Hv & Hfresh)];
      [by left|].
    right. left. exists b. unfold after.
    by rewrite (post_organizations_valid u b w).
  - destruct (put_organization_cases u i b w)
      as [?|(Hon & Hv & r0 & Hr & Ht)]; [by left|].
    right. right. left. exists i, b, r0. unfold after.
    by rewrite (put_organization_valid u i b w r0).
  - destruct (online w) eqn:Hon.
    + unfold after. rewrite delete_organization_run by done.
      destruct (lookup_scoped _ _ _) as [o|] eqn:Ho; [|by left].
      apply lookup_scoped_Some in Ho as (_ & Hr & Ht).
      right. right. right. exists i, (data o). done.
    + left. unfold after, delete_organization, bind, select_by_id_tenant.
      by rewrite stmt_io_offline.
Qed.

(** A request is rejected by the middleware, or runs its handler for the
    verified caller. *)
Lemma serve_cases req w :
  (∃ msg, serve req w =
            (Responded (mkResponse 401 (JError msg)),
             (serve req w).2) ∧
          msg ≠ "" ∧ rows (serve req w).2 = rows w) ∨
  (∃ h u, authorization req = Some h ∧ h ≠ "" ∧
          jwt_verify (replace_first "Bearer " "" h) JWT_SECRET = Some u ∧
          let w0 := log (EVerify (replace_first "Bearer " "" h)) w in
          serve req w =
            match handler (target req) u w0 with
            | (Ok r, w') => (Responded r, w')
            | (Throw e, w') => (Uncaught e, w')
            end).
Proof.
  unfold serve, auth, bind, verify, send, ret.
  destruct (authorization req) as [h|]; simpl.
  2:{ left. by exists "No token provided". }
  destruct (String.eqb h "") eqn:Hh; simpl.
  { left. by exists "No token provided". }
  apply String.eqb_neq in Hh.
  destruct (jwt_verify _ _) as [u|] eqn:Hv; simpl.
  - right. by exists h, u.
  - left. by exists "Invalid token".
Qed.

Lemma serve_accepts req w h u :
  authorization req = Some h → h ≠ "" →
  jwt_verify (replace_first "Bearer " "" h) JWT_SECRET = Some u →
  serve req w =
    match handler (target req) u
            (log (EVerify (replace_first "Bearer " "" h)) w) with
    | (Ok r, w') => (Responded r, w')
    | (Throw e, w') => (Uncaught e, w')
    end.
Proof.
  intros Hh Hne Hv. unfold serve. by rewrite Hh, (auth_accepts h u).
Qed.

Lemma serve_rows_handler req w h u :
  authorization req = Some h → h ≠ "" →
  jwt_verify (replace_first "Bearer " "" h) JWT_SECRET = Some u →
  rows (serve req w).2 =
    rows (after (handler (target req) u)
            (log (EVerify (replace_first "Bearer " "" h)) w)).
Proof.
  intros Hh Hne Hv. rewrite (serve_accepts req w h u) by done.
  unfold after. by destruct (handler _ _ _) as [[]].
Qed.

End Cases.

Ltac shaped :=
  intros [= <-]; simpl;
  first [ left; split; [done|]; eexists; split; [done|done]
        | right; split; [by (left + right)|done] ].

Section Extras.
Context {L : Libs}.

Lemma handler_shape r u w resp :
  (handler r u w).1 = Ok resp →
  (is_error_status (status resp) = true ∧
   ∃ msg, body resp = JError msg ∧ msg ≠ "") ∨
  ((status resp = 200 ∨ status resp = 201) ∧ ∀ msg, body resp ≠ JError msg).
Proof.
  destruct r as [|i|b|i b|i]; simpl.
  - unfold get_organizations, bind, select_by_tenant, stmt_io. simpl.
    destruct (online w); simpl; [shaped|done].
  - unfold get_organization, bind, select_by_id_tenant, stmt_io. simpl.
    destruct (online w); simpl; [|done].
    destruct (lookup_scoped _ _ _); simpl; shaped.
  - unfold post_organizations, bind.
    destruct (name_missing _ _) as [[[]|e] w1] eqn:Hnm;
      pose proof (name_missing_world _ _ _ _ Hnm) as ->; simpl;
      [shaped| |done].
    apply name_missing_Ok_false in Hnm.
    rewrite call_trim_proper by done. unfold bind_param.
    repeat bound_cases. unfold insert_org, select_by_id, stmt_io. simpl.
    destruct (online w) eqn:Hon; [|done].
    destruct (rows w !! uuidv4_nth (uuid_calls w)); simpl; [done|].
    repeat (rewrite Hon; simpl). shaped.
  - unfold put_organization, bind, select_by_id_tenant.
    destruct (online w) eqn:Hon; [|by rewrite stmt_io_offline].
    rewrite stmt_io_online by done. simpl.
    destruct (lookup_scoped _ _ _); simpl; [|shaped].
    destruct (name_missing _ _) as [[[]|e] w1] eqn:Hnm;
      pose proof (name_missing_world _ _ _ _ Hnm) as ->; simpl;
      [shaped| |done].
    apply name_missing_Ok_false in Hnm.
    rewrite call_trim_proper by done. unfold bind_param.
    repeat bound_cases. unfold update_org, select_by_id, stmt_io. simpl.
    repeat (rewrite Hon; simpl). shaped.
  - destruct (online w) eqn:Hon.
    + rewrite delete_organization_run by done.
      destruct (lookup_scoped _ _ _); simpl; shaped.
    + unfold delete_organization, bind, select_by_id_tenant.
      by rewrite stmt_io_offline.
Qed.

(** X1. Every response is an error status with a non-empty message, or a
    success status with a body that is no error object. *)
Theorem response_shape (req : request) (w : World) (resp : response) :
  (serve req w).1 = Responded resp →
  (is_error_status (status resp) = true ∧
   ∃ msg, body resp = JError msg ∧ msg ≠ "") ∨
  ((status resp = 200 ∨ status resp = 201) ∧ ∀ msg, body resp ≠ JError msg).
Proof.
  destruct (serve_cases req w) as [(msg & -> & Hmsg & _)|(h & u & _ & _ & _ & ->)].
  - simpl. intros [= <-]. left. simpl. split; [done|]. by exists msg.
  - simpl. destruct (handler _ _ _) as [[r|e] w'] eqn:Hh; simpl; [|done].
    intros [= <-]. eapply handler_shape. by rewrite Hh.
Qed.

End Extras.

Section Extras2.
Context {L : Libs}.

Lemma handler_other_tenants r u w i row :
  rows w !! i = Some row → tenant_id row ≠ tenantId u →
  rows (after (handler r u) w) !! i = Some row.
Proof.
  intros Hi Hne.
  destruct (handler_table r u w)
    as [->|[(b & _ & _ & Hfresh & _ & ->)
           |[(j & b & r0 & _ & _ & Hr0 & Ht & _ & ->)
            |(j & r0 & _ & Hr0 & Ht & _ & ->)]]]; [done| | |].
  - rewrite lookup_insert_ne; [done|]. intros Heq. congruence.
  - rewrite lookup_insert_ne; [done|]. intros ->. congruence.
  - rewrite lookup_delete_ne; [done|]. intros ->. congruence.
Qed.

(** X3. A request changes no row of a tenant other than the caller's. *)
Theorem other_tenants_untouched (req : request) (w : World) (h : string)
    (u : user) (i : string) (row : Row) :
  authorization req = Some h → h ≠ "" →
  jwt_verify (replace_first "Bearer " "" h) JWT_SECRET = Some u →
  rows w !! i = Some row → tenant_id row ≠ tenantId u →
  rows (serve req w).2 !! i = Some row.
Proof.
  intros Hh Hne Hv Hi Ht. rewrite (serve_rows_handler req w h u) by done.
  by apply handler_other_tenants.
Qed.

Lemma handler_immutable r u w i row row' :
  rows w !! i = Some row → rows (after (handler r u) w) !! i = Some row' →
  tenant_id row' = tenant_id row ∧ created_at row' = created_at row.
Proof.
  intros Hi.
  destruct (handler_table r u w)
    as [->|[(b & _ & _ & Hfresh & _ & ->)
           |[(j & b & r0 & _ & _ & Hr0 & Ht & _ & ->)
            |(j & r0 & _ & Hr0 & Ht & _ & ->)]]].
  - rewrite Hi. by intros [= <-].
  - rewrite lookup_insert_ne by congruence. rewrite Hi. by intros [= <-].
  - destruct (decide (j = i)) as [->|Hji].
    + rewrite lookup_insert_eq. intros [= <-]. simpl.
      rewrite Hi in Hr0. by injection Hr0 as <-.
    + rewrite lookup_insert_ne by done. rewrite Hi. by intros [= <-].
  - destruct (decide (j = i)) as [->|Hji].
    + by rewrite lookup_delete_eq.
    + rewrite lookup_delete_ne by done. rewrite Hi. by intros [= <-].
Qed.

(** X4. Whatever the request, a row that is still there afterwards has the
    tenant and the creation time it had. *)
Theorem tenant_and_creation_immutable (req : request) (w : World)
    (i : string) (row row' : Row) :
  rows w !! i = Some row → rows (serve req w).2 !! i = Some row' →
  tenant_id row' = tenant_id row ∧ created_at row' = created_at row.
Proof.
  intros Hi.
  destruct (serve_cases req w) as [(msg & _ & _ & ->)|(h & u & Hh & Hne & Hv & _)].
  - rewrite Hi. by intros [= <-].
  - rewrite (serve_rows_handler req w h u) by done.
    by apply handler_immutable.
Qed.


Lemma handler_names_ok r u w :
  names_ok (rows w) → names_ok (rows (after (handler r u) w)).
Proof.
  intros Hok.
  destruct (handler_table r u w)
    as [->|[(b & _ & Hvb & _ & _ & ->)
           |[(j & b & r0 & _ & Hvb & _ & _ & _ & ->)
            |(j & r0 & _ & _ & _ & _ & ->)]]]; [done| | |].
  - apply map_Forall_insert_2; [|done]. by apply valid_body_trimmed_name.
  - apply map_Forall_insert_2; [|done]. by apply valid_body_trimmed_name.
  - by apply map_Forall_delete.
Qed.

(** X5. If every stored name is non-empty and trimmed, so it is after any
    request. *)
Theorem names_stay_trimmed (req : request) (w : World) :
  names_ok (rows w) → names_ok (rows (serve req w).2).
Proof.
  intros Hok.
  destruct (serve_cases req w) as [(msg & _ & _ & ->)|(h & u & Hh & Hne & Hv & _)];
    [done|].
  rewrite (serve_rows_handler req w h u) by done.
  by apply handler_names_ok.
Qed.

(** X6. A create whose uuid is already a key is refused by the primary key:
    the exception is not caught and the row that has the key stays. *)
Theorem create_never_overwrites (u : user) (b : gmap string jsval)
    (w : World) (row : Row) :
  online w = true → valid_body b = true →
  rows w !! uuidv4_nth (uuid_calls w) = Some row →
  (post_organizations u b w).1 = Throw SqliteError ∧
  rows (after (post_organizations u b) w) = rows w.
Proof.
  intros Hon Hv Hrow. apply valid_body_fields in Hv as [Hn Hf].
  unfold after, post_organizations, bind.
  rewrite name_missing_proper by done. unfold uuidv4.
  rewrite call_trim_proper by done. unfold bind_param.
  rewrite !(proj1 (bound_storable _)) by (apply Hf; set_solver).
  unfold insert_org. rewrite stmt_io_online by done. simpl.
  by rewrite Hrow.
Qed.

(** X7. A name that is truthy and not a string makes the handler throw a
    TypeError instead of answering 400; nothing is written. *)
Theorem non_string_name_throws (u : user) (i : string)
    (b : gmap string jsval) (w : World) :
  truthy (field b "name") = true → (∀ s, field b "name" ≠ JStr s) →
  post_organizations u b w = (Throw TypeError, w) ∧
  (∀ o, online w = true →
        lookup_scoped (rows w) i (tenantId u) = Some o →
        (put_organization u i b w).1 = Throw TypeError ∧
        rows (after (put_organization u i b) w) = rows w).
Proof.
  intros Ht Hns.
  assert (∀ w0, name_missing (field b "name") w0 = (Throw TypeError, w0))
    as Hnm.
  { intros w0. unfold name_missing, bind. rewrite Ht. simpl.
    destruct (field b "name"); try done. by destruct (Hns s). }
  split.
  - unfold post_organizations, bind. by rewrite Hnm.
  - intros o Hon Ho. unfold after, put_organization, bind, select_by_id_tenant.
    rewrite stmt_io_online by done. simpl. rewrite Ho. by rewrite Hnm.
Qed.

(** X8. A create followed by the delete of the id it returned leaves the
    table as it was before the create. *)
Theorem create_then_delete_restores (u : user) (b : gmap string jsval)
    (w : World) :
  online w = true → valid_body b = true →
  rows w !! uuidv4_nth (uuid_calls w) = None →
  let i := uuidv4_nth (uuid_calls w) in
  let w1 := after (post_organizations u b) w in
  (delete_organization u i w1).1 = Ok (mkResponse 200 JOkTrue) ∧
  rows (after (delete_organization u i) w1) = rows w.
Proof.
  intros Hon Hv Hfresh i w1. subst i w1. unfold after.
  rewrite (post_organizations_valid u b w) by done. simpl.
  rewrite delete_organization_run by done. simpl.
  rewrite (lookup_scoped_own _ _ (row_of (tenantId u) b (clock w) None)
             (lookup_insert_eq _ _ _)). simpl.
  split; [done|]. by rewrite delete_insert_id.
Qed.

(** X9. The records the list returns are exactly those a get by id
    returns. *)
Theorem get_agrees_with_list (u : user) (w : World) :
  online w = true →
  ∃ orgs,
    (get_organizations u w).1 = Ok (mkResponse 200 (JOrganizations orgs)) ∧
    ∀ o, o ∈ orgs ↔
         (get_organization u (id o) w).1 = Ok (mkResponse 200 (JOrg (Some o))).
Proof.
  intros Hon. eexists. rewrite get_organizations_run by done.
  split; [done|]. intros o. rewrite elem_of_tenant_orgs.
  rewrite get_organization_run by done. simpl.
  destruct (lookup_scoped _ _ _) as [o'|] eqn:Ho.
  - apply lookup_scoped_Some in Ho as (Hid & Hr & Ht). split.
    + intros [Hr' Ht']. destruct o as [j r], o' as [j' r']. simpl in *.
      subst. rewrite Hr' in Hr. by injection Hr as ->.
    + intros [= <-]. done.
  - apply lookup_scoped_None in Ho. split; [|done].
    intros [Hr Ht]. destruct Ho as [Ho|(r & Ho & Hne)]; congruence.
Qed.

(** X10. After a create, the caller's list is the list before with the new
    record added, still sorted. *)
Theorem list_after_create (u : user) (b : gmap string jsval) (w : World) :
  online w = true → valid_body b = true →
  rows w !! uuidv4_nth (uuid_calls w) = None →
  ∃ o orgs orgs',
    (post_organizations u b w).1 = Ok (mkResponse 201 (JOrg (Some o))) ∧
    (get_organizations u w).1 = Ok (mkResponse 200 (JOrganizations orgs)) ∧
    (get_organizations u (after (post_organizations u b) w)).1 =
      Ok (mkResponse 200 (JOrganizations orgs')) ∧
    orgs' ≡ₚ o :: orgs ∧
    StronglySorted name_le orgs'.
Proof.
  intros Hon Hv Hfresh. unfold after.
  rewrite (post_organizations_valid u b w) by done. simpl.
  do 3 eexists. split; [done|]. rewrite !get_organizations_run by done.
  simpl. split; [done|]. split; [done|].
  split; [|apply StronglySorted_merge_sort; apply _].
  rewrite !merge_sort_Permutation.
  rewrite map_to_list_insert by done.
  rewrite filter_cons_True by done. done.
Qed.

(** X11. A successful update is read back by the next get. *)
Theorem update_get_roundtrip (u : user) (i : string)
    (b : gmap string jsval) (w : World) (resp : response) (later : string) :
  (put_organization u i b w).1 = Ok resp → status resp = 200 →
  (get_organization u i
     (set_clock later (after (put_organization u i b) w))).1 =
    Ok (mkResponse 200 (body resp)).
Proof.
  intros Hok Hst.
  destruct (put_organization_200 _ _ _ _ _ Hok Hst)
    as (Hon & Hv & r & Hr & Ht).
  pose proof (put_organization_valid u i b w r Hon Hr Ht Hv) as Hrun.
  simpl in Hrun. unfold after. rewrite Hrun in Hok |- *.
  simpl in Hok. injection Hok as <-. simpl.
  rewrite get_organization_run by done. simpl.
  rewrite <- Ht.
  by rewrite (lookup_scoped_own _ _
                (row_of (tenant_id r) b (created_at r) (Some (clock w)))
                (lookup_insert_eq _ _ _)).
Qed.

End Extras2.

(** ** The token in the header *)

Lemma replace_first_unfold (pat rep s : string) :
  replace_first pat rep s =
    if String.prefix pat s
    then rep ++ String.substring (String.length pat)
                  (String.length s - String.length pat) s
    else match s with
         | EmptyString => EmptyString
         | String c s' => String c (replace_first pat rep s')
         end.
Proof. by destruct s. Qed.

Lemma prefix_append (p t : string) : String.prefix p (p ++ t) = true.
Proof.
  induction p as [|a p IH]; simpl; [by destruct t|].
  by destruct (ascii_dec a a).
Qed.

Lemma length_append (p t : string) :
  String.length (p ++ t) = String.length p + String.length t.
Proof. induction p as [|a p IH]; simpl; [done|]. by rewrite IH. Qed.

Lemma substring_all (s : string) : String.substring 0 (String.length s) s = s.
Proof. induction s as [|c s IH]; simpl; [done|]. by rewrite IH. Qed.

Lemma substring_append (p t : string) :
  String.substring (String.length p) (String.length t) (p ++ t) = t.
Proof. induction p as [|a p IH]; simpl; [apply substring_all|done]. Qed.

Lemma replace_first_prefix (p t : string) : replace_first p "" (p ++ t) = t.
Proof.
  rewrite replace_first_unfold, prefix_append, length_append.
  replace (String.length p + String.length t - String.length p)
    with (String.length t) by lia.
  by rewrite substring_append.
Qed.

Lemma replace_first_absent (pat rep s : string) :
  contains pat s = false → replace_first pat rep s = s.
Proof.
  induction s as [|c s IH]; rewrite replace_first_unfold; simpl.
  - rewrite orb_false_r. by intros ->.
  - intros [Hp Hc]%orb_false_elim. rewrite Hp. by rewrite IH.
Qed.

Section Extras3.
Context {L : Libs}.

(** X12. The scheme word is not required. A non-empty header with no
    "Bearer " in it is taken whole as the token, so it is served exactly
    as the same token behind "Bearer ". *)
Theorem bearer_prefix_optional (t : string) (tgt : route) (w : World) :
  t ≠ "" → contains "Bearer " t = false →
  serve (mkRequest (Some t) tgt) w =
  serve (mkRequest (Some ("Bearer " ++ t)) tgt) w.
Proof.
  intros Hne Hc. unfold serve, auth, bind, verify. simpl.
  apply String.eqb_neq in Hne. rewrite Hne. simpl.
  by rewrite replace_first_prefix, replace_first_absent.
Qed.

End Extras3.

(** ** Start-up *)

Lemma env_or_empty (env : gmap string string) (k : string) :
  Startup.env_or env k "" = "" ↔ env !! k = None ∨ env !! k = Some "".
Proof.
  unfold Startup.env_or. destruct (env !! k) as [v|]; [|by split; [left|]].
  simpl. destruct (String.eqb v "") eqn:Hv; simpl.
  - apply String.eqb_eq in Hv. subst. split; [by right|done].
  - apply String.eqb_neq in Hv. split; [done|]. intros [|[= ->]]; done.
Qed.

Lemma autoRegister_with_token
    (net : Startup.fetch_request → Startup.fetch_outcome)
    (c : Startup.Config) :
  Startup.MFE_ADMIN_TOKEN c ≠ "" →
  ∃ req line,
    Startup.url req = Startup.MFE_HOST_API_URL c ++ "/api/admin/modules" ∧
    ("x-admin-token", Startup.MFE_ADMIN_TOKEN c) ∈ Startup.headers req ∧
    ∀ t1, Startup.autoRegister net c t1 =
            (inr tt, (t1 ++ [Startup.Fetch req; Startup.Log line])%list).
Proof.
  intros Hne. apply String.eqb_neq in Hne.
  unfold Startup.autoRegister. simpl. rewrite Hne. simpl.
  unfold Startup.try_catch, Startup.then_, Startup.fetch,
    Startup.console_log, Startup.res_text, Startup.raise, Startup.pure.
  match goal with |- context [Startup.Fetch ?r] => exists r end.
  destruct (net _) as [message|status [message|text]]; simpl.
  - eexists. split; [done|]. split; [set_solver|].
    intros t1. by rewrite <- app_assoc.
  - destruct (Startup.res_ok status); simpl; eexists;
      (split; [done|]); (split; [set_solver|]); intros t1;
      by rewrite <- app_assoc.
  - destruct (Startup.res_ok status); simpl; eexists;
      (split; [done|]); (split; [set_solver|]); intros t1;
      by rewrite <- app_assoc.
Qed.

(** X13. [autoRegister] never rejects, whatever [fetch] and [res.text()]
    do; it logs one line; it fetches nothing when the environment has no
    admin token or an empty one, and otherwise fetches once, from the
    configured host, with that token in [x-admin-token]. The callback of
    [app.listen] logs its banner first and then does the same. *)
Theorem autoRegister_never_rejects
    (net : Startup.fetch_request → Startup.fetch_outcome)
    (env : gmap string string) (db : string) (t0 : list Startup.event) :
  let c := Startup.config env db in
  ∃ t,
    Startup.autoRegister net c t0 = (inr tt, (t0 ++ t)%list) ∧
    List.length (Startup.logs t) = 1 ∧
    (env !! "MFE_ADMIN_TOKEN" = None ∨ env !! "MFE_ADMIN_TOKEN" = Some "" →
     Startup.fetches t = []) ∧
    (∀ tok, env !! "MFE_ADMIN_TOKEN" = Some tok → tok ≠ "" →
       ∃ req, Startup.fetches t = [req] ∧
              Startup.url req =
                Startup.MFE_HOST_API_URL c ++ "/api/admin/modules" ∧
              ("x-admin-token", tok) ∈ Startup.headers req) ∧
    ∃ banner,
      Startup.on_listen net c t0 =
        (inr tt, (t0 ++ Startup.Log banner :: t)%list).
Proof.
  intros c.
  destruct (decide (Startup.MFE_ADMIN_TOKEN c = "")) as [Hempty|Hne].
  - exists [Startup.Log
      [Startup.AStr "No MFE_ADMIN_TOKEN set, skipping auto-registration"]].
    unfold Startup.on_listen, Startup.then_, Startup.autoRegister,
      Startup.console_log.
    rewrite Hempty. simpl.
    split; [done|]. split; [done|]. split; [done|]. split.
    + intros tok Htk Hn. exfalso. subst c. simpl in Hempty.
      apply env_or_empty in Hempty. destruct Hempty; congruence.
    + eexists. by rewrite <- app_assoc.
  - destruct (autoRegister_with_token net c Hne)
      as (req & line & Hurl & Hhdr & Hrun).
    exists [Startup.Fetch req; Startup.Log line]. rewrite Hrun.
    split; [done|]. split; [done|]. split.
    + intros Hnone. apply env_or_empty in Hnone. done.
    + split.
      * intros tok Htk Hn. exists req. split; [done|]. split; [done|].
        replace tok with (Startup.MFE_ADMIN_TOKEN c); [done|].
        subst c. simpl. unfold Startup.env_or. rewrite Htk. simpl.
        apply String.eqb_neq in Hn. by rewrite Hn.
      * eexists. unfold Startup.on_listen, Startup.then_,
          Startup.console_log. simpl.
        rewrite Hrun. by rewrite <- app_assoc.
Qed.

(** ** The form UI *)

Lemma ui_form_insert (f : gmap string jsval) (k v : string) :
  ui_form f → ui_form (<[k := JStr v]> f).
Proof.
  intros Hf j Hj. destruct (decide (k = j)) as [->|Hne].
  - exists v. apply lookup_insert_eq.
  - rewrite lookup_insert_ne by done. by apply Hf.
Qed.

Lemma ui_form_of (org : Frontend.Organization) :
  ui_form (Frontend.form_of org).
Proof.
  intros k Hk. unfold body_keys in Hk. simpl in Hk.
  repeat (apply elem_of_cons in Hk as [->|Hk]; [by eexists|]).
  by apply elem_of_nil in Hk.
Qed.

Lemma ui_form_empty : ui_form Frontend.emptyForm.
Proof.
  intros k Hk. unfold body_keys in Hk. simpl in Hk.
  repeat (apply elem_of_cons in Hk as [->|Hk]; [by eexists|]).
  by apply elem_of_nil in Hk.
Qed.

Lemma ui_form_field (f : gmap string jsval) (k : string) :
  ui_form f → k ∈ body_keys → ∃ s, field f k = JStr s.
Proof.
  intros Hf Hk. destruct (Hf k Hk) as [s Hs]. exists s.
  unfold field. by rewrite Hs.
Qed.

Lemma ui_form_valid (f : gmap string jsval) :
  ui_form f → valid_body f = proper_name (field f "name").
Proof.
  intros Hf. unfold valid_body.
  assert (∀ k, k ∈ optional_columns.*1 → storable (field f k) = true) as Hs.
  { intros k Hk. destruct (ui_form_field f k Hf) as [s Hs].
    - unfold body_keys. by right.
    - rewrite Hs. unfold storable, js_or. simpl.
      by destruct (String.eqb s ""). }
  assert (forallb (λ k, storable (field f k)) optional_columns.*1 = true)
    as ->.
  { apply forallb_forall. intros k Hk. apply Hs. by apply list_elem_of_In. }
  by rewrite andb_true_r.
Qed.

(** X14. The form holds a string under each of its nine keys at the start
    and after every handler, so [handleSave] never throws on it. *)
Theorem form_holds_strings (s : Frontend.State) :
  ui_form (Frontend.form Frontend.initial) ∧
  (ui_form (Frontend.form s) →
   (∀ k v, ui_form (Frontend.form (Frontend.setField k v s))) ∧
   ui_form (Frontend.form (Frontend.openNew s)) ∧
   (∀ org, ui_form (Frontend.form (Frontend.openEdit org s))) ∧
   (∀ org, ui_form (Frontend.form (Frontend.openDetail org s))) ∧
   (∀ net, ui_form
      (Frontend.form (Frontend.run_handler net Frontend.load s).1)) ∧
   (∀ net, ui_form
      (Frontend.form (Frontend.run_handler net Frontend.handleSave s).1)) ∧
   (∀ net i c, ui_form
      (Frontend.form
         (Frontend.run_handler net (Frontend.handleDelete i c) s).1)) ∧
   (∀ e, (Frontend.handleSave s).2 ≠ Frontend.Reject e)).
Proof.
  split; [apply ui_form_empty|]. intros Hf.
  split; [intros k v; by apply ui_form_insert|].
  split; [apply ui_form_empty|].
  split; [intros org; apply ui_form_of|].
  split; [done|].
  split; [intros net; unfold Frontend.run_handler; simpl;
          by destruct (net _ _)|].
  destruct (ui_form_field _ "name" Hf ltac:(by left)) as [n Hn].
  split; [|split].
  - intros net. unfold Frontend.run_handler, Frontend.handleSave.
    rewrite Hn. destruct (negb (truthy (JStr (trim n)))); [done|].
    destruct (Frontend.editId s) as [i|]; [destruct (truthy (JStr i))|];
      simpl; destruct (net _ _); simpl; try done;
      destruct (net _ _); simpl; apply ui_form_empty.
  - intros net i c. unfold Frontend.run_handler, Frontend.handleDelete.
    destruct c; simpl; [|done].
    destruct (net _ _); simpl; [|done]. by destruct (net _ _).
  - intros e. unfold Frontend.handleSave. rewrite Hn.
    destruct (negb (truthy (JStr (trim n)))); [done|].
    destruct (Frontend.editId s) as [i|]; [destruct (truthy (JStr i))|];
      done.
Qed.

Lemma truthy_trim_proper n :
  negb (truthy (JStr (trim n))) = negb (proper_name (JStr n)).
Proof. done. Qed.

(** X15. The check of [handleSave] and the check of the server agree on
    every form of the UI: a save is sent exactly when the server finds
    the body valid, with the form as body; otherwise nothing is sent and
    the UI shows the message the server would have answered with. *)
Theorem save_validation_agrees (s : Frontend.State) :
  ui_form (Frontend.form s) →
  match (Frontend.handleSave s).2 with
  | Frontend.Await path options _ _ =>
      valid_body (Frontend.form s) = true ∧
      Frontend.body options = Some (Frontend.form s)
  | Frontend.Return =>
      valid_body (Frontend.form s) = false ∧
      Frontend.error (Frontend.handleSave s).1 = "Namn krävs" ∧
      ∀ (L : Libs) u w,
        post_organizations u (Frontend.form s) w =
          (Ok (mkResponse 400 (JError "Namn krävs")), w)
  | Frontend.Reject _ => False
  end.
Proof.
  intros Hf. rewrite (ui_form_valid _ Hf).
  destruct (ui_form_field _ "name" Hf ltac:(by left)) as [n Hn].
  unfold Frontend.handleSave. rewrite Hn, truthy_trim_proper.
  destruct (proper_name (JStr n)) eqn:Hp; simpl.
  - destruct (Frontend.editId s) as [i|]; [destruct (String.eqb i "")|];
      simpl; by split.
  - split; [done|]. split; [done|]. intros L u w.
    apply post_organizations_blank. rewrite Hn. simpl in *.
    by apply negb_false_iff in Hp.
Qed.

Lemma stored_JStr (s : string) : stored (JStr s) = CText s.
Proof.
  unfold stored, js_or. simpl. destruct (String.eqb s "") eqn:Hs; simpl.
  - apply String.eqb_eq in Hs. by subst.
  - done.
Qed.

Lemma text_of_Some c s : text_of c = Some s → c = CText s.
Proof. destruct c; simpl; congruence. Qed.

Lemma decode_org_Some (o : Org) (org : Frontend.Organization) :
  decode_org o = Some org →
  Frontend.id org = id o ∧
  row_of (tenant_id (data o)) (Frontend.form_of org) (created_at (data o))
    (updated_at (data o)) =
  mkRow (tenant_id (data o)) (trim (name (data o))) (org_number (data o))
    (address (data o)) (city (data o)) (zip (data o)) (phone (data o))
    (email (data o)) (website (data o)) (description (data o))
    (created_at (data o)) (updated_at (data o)) ∧
  field (Frontend.form_of org) "name" = JStr (name (data o)).
Proof.
  unfold decode_org. intros H. simplify_option_eq.
  repeat match goal with
  | H : text_of _ = Some _ |- _ => apply text_of_Some in H
  end.
  split; [done|]. unfold row_of, Frontend.form_of, field. simpl.
  repeat (rewrite lookup_insert_eq || rewrite lookup_insert_ne by done).
  simpl. rewrite !stored_JStr. split; [|done]. destruct o as [i r]. simpl in *.
  congruence.
Qed.

(** X16. Opening a record in the form and saving it unchanged sends a PUT
    for its id whose body the server stores as the same record: only
    [updated_at] moves. *)
Theorem edit_then_save_keeps_record (o : Org) (org : Frontend.Organization)
    (u : user) (w : World) (s : Frontend.State) :
  decode_org o = Some org → trimmed_name (data o) → id o ≠ "" →
  online w = true → rows w !! id o = Some (data o) →
  tenant_id (data o) = tenantId u →
  ∃ resume next,
    (Frontend.handleSave (Frontend.openEdit org s)).2 =
      Frontend.Await ("/organizations/" ++ id o)
        (Frontend.mkInit (Some "PUT") (Some (Frontend.form_of org)) ∅)
        resume next ∧
    (put_organization u (id o) (Frontend.form_of org) w).1 =
      Ok (mkResponse 200
            (JOrg (Some (mkOrg (id o) (touched (clock w) (data o)))))) ∧
    rows (after (put_organization u (id o) (Frontend.form_of org)) w) =
      <[id o := touched (clock w) (data o)]> (rows w).
Proof.
  intros Hdec [Hne Htrim] Hid Hon Hrow Hten.
  destruct (decode_org_Some o org Hdec) as (Hi & Hrowof & Hname).
  assert (valid_body (Frontend.form_of org) = true) as Hv.
  { rewrite (ui_form_valid _ (ui_form_of org)), Hname. simpl.
    rewrite Htrim. by apply negb_true_iff, String.eqb_neq. }
  pose proof (put_organization_valid u (id o) (Frontend.form_of org) w
                (data o) Hon Hrow Hten Hv) as Hrun. simpl in Hrun.
  assert (row_of (tenant_id (data o)) (Frontend.form_of org)
            (created_at (data o)) (Some (clock w)) =
          touched (clock w) (data o)) as Hrow'.
  { unfold touched. unfold row_of in *. rewrite Hname in *. rewrite Htrim in *.
    injection Hrowof as -> -> -> -> -> -> -> ->. done. }
  rewrite Hrow' in Hrun. unfold after. rewrite Hrun. simpl.
  unfold Frontend.handleSave. simpl. rewrite Hname. rewrite Htrim.
  apply String.eqb_neq in Hne, Hid. rewrite Hi, Hne, Hid. simpl.
  by do 2 eexists.
Qed.

(** X20. A record is opened in the form, one optional field is typed
    over, and the form is saved: the PUT carries the form, and the
    server's update stores the typed text in that column and leaves the
    name, the other optional columns, the tenant and the creation time
    as they were. *)
Theorem edit_field_then_save (o : Org) (org : Frontend.Organization)
    (u : user) (w : World) (s : Frontend.State) (k : string)
    (col : Row → colval) (v : string) :
  decode_org o = Some org → trimmed_name (data o) → id o ≠ "" →
  online w = true → rows w !! id o = Some (data o) →
  tenant_id (data o) = tenantId u →
  (k, col) ∈ optional_columns →
  let b := <[k := JStr v]> (Frontend.form_of org) in
  ∃ resume next row',
    (Frontend.handleSave
       (Frontend.setField k v (Frontend.openEdit org s))).2 =
      Frontend.Await ("/organizations/" ++ id o)
        (Frontend.mkInit (Some "PUT") (Some b) ∅) resume next ∧
    (put_organization u (id o) b w).1 =
      Ok (mkResponse 200 (JOrg (Some (mkOrg (id o) row')))) ∧
    rows (after (put_organization u (id o) b) w) !! id o = Some row' ∧
    col row' = CText v ∧
    name row' = name (data o) ∧
    (∀ k' col', (k', col') ∈ optional_columns → k' ≠ k →
       col' row' = col' (data o)) ∧
    tenant_id row' = tenant_id (data o) ∧
    created_at row' = created_at (data o) ∧
    updated_at row' = Some (clock w).
Proof.
  intros Hdec [Hne Htrim] Hid Hon Hrow Hten Hk b.
  destruct (decode_org_Some o org Hdec) as (Hi & Hrowof & Hname).
  assert (k ≠ "name") as Hkn.
  { intros ->. unfold optional_columns in Hk.
    repeat (apply elem_of_cons in Hk as [[=]|Hk]).
    by apply elem_of_nil in Hk. }
  assert (field b "name" = JStr (name (data o))) as Hbn.
  { subst b. by rewrite field_insert_ne. }
  assert (valid_body b = true) as Hv.
  { rewrite (ui_form_valid b (ui_form_insert _ k v (ui_form_of org))), Hbn.
    simpl. rewrite Htrim. by apply negb_true_iff, String.eqb_neq. }
  pose proof (put_organization_valid u (id o) b w (data o) Hon Hrow Hten Hv)
    as Hrun. simpl in Hrun.
  exists
    (λ res s',
       match res with
       | Frontend.Resolved _ =>
           (Frontend.load (Frontend.setView Frontend.list_view
              (Frontend.setEditId None (Frontend.setForm Frontend.emptyForm
                 (Frontend.setSuccess "Organisation uppdaterad!" s'))))).1
       | Frontend.Rejected e => Frontend.setError e s'
       end),
    (λ res,
       match res with
       | Frontend.Resolved _ =>
           (Frontend.load
              (Frontend.setField k v (Frontend.openEdit org s))).2
       | Frontend.Rejected _ => Frontend.Return
       end),
    (row_of (tenant_id (data o)) b (created_at (data o)) (Some (clock w))).
  split.
  { unfold Frontend.handleSave. simpl. fold b. rewrite Hbn, Htrim.
    apply String.eqb_neq in Hne, Hid. by rewrite Hi, Hne, Hid. }
  unfold after. rewrite Hrun. simpl.
  split; [done|]. split; [apply lookup_insert_eq|]. split.
  { rewrite (row_of_optional _ _ _ _ k col Hk). subst b.
    unfold field. rewrite lookup_insert_eq. simpl. apply stored_JStr. }
  split.
  { unfold row_of. simpl. by rewrite Hbn, Htrim. }
  split; [|done].
  intros k' col' Hk' Hkk'.
  rewrite (row_of_optional _ _ _ _ k' col' Hk'). subst b.
  rewrite field_insert_ne by done.
  rewrite <- (row_of_optional (tenant_id (data o)) (Frontend.form_of org)
                (created_at (data o)) (updated_at (data o)) k' col' Hk').
  rewrite Hrowof. unfold optional_columns in Hk'.
  repeat (apply elem_of_cons in Hk' as [[= -> ->]|Hk']; [done|]).
  by apply elem_of_nil in Hk'.
Qed.

Lemma error_status_not_ok c : is_error_status c = true → Startup.res_ok c = false.
Proof.
  unfold is_error_status. rewrite !orb_true_iff, !Nat.eqb_eq.
  by intros [[->| ->]| ->].
Qed.

Section UI_and_service.
Context {L : Libs}.

(** X17. What [api] makes of a response of the service: an error response
    rejects with the message of the service, never with the status text;
    any other response resolves with its data. *)
Theorem server_message_reaches_ui (req : request) (w : World)
    (resp : response) (statusText : string) (d : Frontend.data) :
  (serve req w).1 = Responded resp → decode_body (body resp) = Some d →
  Frontend.api_result_of
    (Frontend.Response (status resp) statusText (inr d)) =
  match body resp with
  | JError msg => Frontend.Rejected msg
  | _ => Frontend.Resolved d
  end.
Proof.
  intros Hresp Hd.
  assert ((is_error_status (status resp) = true ∧
           ∃ msg, body resp = JError msg ∧ msg ≠ "") ∨
          ((status resp = 200 ∨ status resp = 201) ∧
           ∀ msg, body resp ≠ JError msg)) as Hshape.
  { revert Hresp.
    destruct (serve_cases req w)
      as [(msg & -> & Hmsg & _)|(h & u & _ & _ & _ & ->)]; simpl.
    - intros [= <-]. left. simpl. split; [done|]. by exists msg.
    - destruct (handler _ _ _) as [[r|e] w'] eqn:Hh; simpl; [|done].
      intros [= <-]. eapply handler_shape. by rewrite Hh. }
  destruct Hshape as [[Herr (msg & Hb & Hne)]|[Hok Hb]].
  - rewrite Hb in Hd |- *. simpl in Hd. injection Hd as <-.
    unfold Frontend.api_result_of. rewrite (error_status_not_ok _ Herr).
    simpl. apply String.eqb_neq in Hne. by rewrite Hne.
  - unfold Frontend.api_result_of.
    assert (Startup.res_ok (status resp) = true) as ->
      by (by destruct Hok as [-> | ->]).
    simpl. destruct (body resp); try done. by destruct (Hb msg).
Qed.

(** X18. The token in the local storage, when it is of visible ASCII, is
    the token the service verifies;
    with no token, or an empty one, [api] sends no [Authorization]
    header, the service answers 401, and [api] rejects with its
    message. *)
Theorem stored_token_is_verified (backend_url path : string)
    (options : Frontend.RequestInit) (tgt : route) (w : World) :
  Frontend.headers options = ∅ →
  (∀ t, t ≠ "" → header_safe t = true →
     let h := Frontend.headers (Frontend.init
                (Frontend.api_call backend_url (Some t) path options))
              !! "Authorization" in
     h = Some ("Bearer " ++ t) ∧
     serve (mkRequest h tgt) w =
       match jwt_verify t JWT_SECRET with
       | Some u =>
           match handler tgt u (log (EVerify t) w) with
           | (Ok r, w') => (Responded r, w')
           | (Throw e, w') => (Uncaught e, w')
           end
       | None =>
           (Responded (mkResponse 401 (JError "Invalid token")),
            log (EVerify t) w)
       end) ∧
  (∀ token, token = None ∨ token = Some "" →
     let h := Frontend.headers (Frontend.init
                (Frontend.api_call backend_url token path options))
              !! "Authorization" in
     h = None ∧
     serve (mkRequest h tgt) w =
       (Responded (mkResponse 401 (JError "No token provided")), w) ∧
     ∀ statusText,
       Frontend.api_result_of
         (Frontend.Response 401 statusText
            (inr (Frontend.DError "No token provided"))) =
       Frontend.Rejected "No token provided").
Proof.
  intros Hopt. split.
  - intros t Ht _ h. subst h. unfold Frontend.api_call. simpl.
    rewrite Hopt. apply String.eqb_neq in Ht as Ht'. rewrite Ht'. simpl.
    rewrite (left_id_L ∅ (∪)).
    rewrite lookup_union_l' by (by rewrite lookup_singleton_eq).
    rewrite lookup_singleton_eq. split; [done|].
    unfold serve, auth, bind, verify. simpl.
    rewrite replace_first_prefix. by destruct (jwt_verify _ _).
  - intros token Htok h. subst h. unfold Frontend.api_call. rewrite Hopt.
    destruct Htok as [-> | ->]; simpl; rewrite !(left_id_L ∅ (∪));
      rewrite lookup_singleton_ne by done; done.
Qed.

End UI_and_service.

(** X19. A save the form check lets through makes one call with the form as
    body. If it resolves, the form is emptied, the list view shown and
    the list fetched again; if it rejects, only the message changes and
    nothing is fetched. *)
Theorem save_then_reload
    (net : string → Frontend.RequestInit → Frontend.api_result)
    (s : Frontend.State) (n : string) :
  field (Frontend.form s) "name" = JStr n → trim n ≠ "" →
  ∃ path options message,
    Frontend.body options = Some (Frontend.form s) ∧
    (message = "Organisation uppdaterad!" ∨ message = "Organisation skapad!") ∧
    (∀ d l, net path options = Frontend.Resolved d →
       net "/organizations" Frontend.no_options =
         Frontend.Resolved (Frontend.DOrganizations l) →
       Frontend.run_handler net Frontend.handleSave s =
         (Frontend.mkState (inl l) Frontend.emptyForm None Frontend.list_view
            (Frontend.selected s) "" message false,
          [(path, options); ("/organizations", Frontend.no_options)])) ∧
    (∀ e, net path options = Frontend.Rejected e →
       Frontend.run_handler net Frontend.handleSave s =
         (Frontend.setError e (Frontend.clearMessages s), [(path, options)])).
Proof.
  intros Hn Hne. apply String.eqb_neq in Hne.
  unfold Frontend.run_handler, Frontend.handleSave. rewrite Hn. simpl.
  rewrite Hne. simpl.
  destruct (Frontend.editId s) as [i|]; [destruct (String.eqb i "")|]; simpl.
  - exists "/organizations",
      (Frontend.mkInit (Some "POST") (Some (Frontend.form s)) ∅),
      "Organisation skapad!".
    split; [done|]. split; [by right|]. split.
    + intros d l Hsave Hlist. rewrite Hsave. simpl. by rewrite Hlist.
    + intros e Hsave. by rewrite Hsave.
  - exists ("/organizations/" ++ i),
      (Frontend.mkInit (Some "PUT") (Some (Frontend.form s)) ∅),
      "Organisation uppdaterad!".
    split; [done|]. split; [by left|]. split.
    + intros d l Hsave Hlist. rewrite Hsave. simpl. by rewrite Hlist.
    + intros e Hsave. by rewrite Hsave.
  - exists "/organizations",
      (Frontend.mkInit (Some "POST") (Some (Frontend.form s)) ∅),
      "Organisation skapad!".
    split; [done|]. split; [by right|]. split.
    + intros d l Hsave Hlist. rewrite Hsave. simpl. by rewrite Hlist.
    + intros e Hsave. by rewrite Hsave.
Qed.

(** * The claims at concrete inputs *)

#[local] Existing Instance sample_libs.

(** The scenario of the specification: the create, the get by another
    tenant, and the update that moves the record to Göteborg. *)
Example scenario_create :
  (post_organizations t1 acme empty_world).1 =
    Ok (mkResponse 201
          (JOrg (Some (mkOrg "u"
             (mkRow "t1" "Acme AB" (CText "") (CText "") (CText "Stockholm")
                (CText "") (CText "") (CText "") (CText "") (CText "")
                "2024-01-01 00:00:00" None))))).
Proof. by vm_compute. Qed.

Example scenario_other_tenant :
  (get_organization t2 "u" world_acme).1 = Ok not_found.
Proof. by vm_compute. Qed.

Example scenario_update :
  (put_organization t1 "u" goteborg
     (set_clock "2024-02-02 00:00:00" world_acme)).1 =
    Ok (mkResponse 200
          (JOrg (Some (mkOrg "u"
             (mkRow "t1" "Acme AB" (CText "") (CText "") (CText "Göteborg")
                (CText "") (CText "") (CText "") (CText "") (CText "")
                "2024-01-01 00:00:00" (Some "2024-02-02 00:00:00")))))).
Proof. by vm_compute. Qed.

(** Records created as "Zeta", "Alpha", "Mid" are listed as "Alpha",
    "Mid", "Zeta". *)
Example list_zeta_alpha_mid :
  match (get_organizations t1 world_three).1 with
  | Ok (mkResponse 200 (JOrganizations orgs)) =>
      (λ o, name (data o)) <$> orgs = ["Alpha"; "Mid"; "Zeta"]
  | _ => False
  end.
Proof. by vm_compute. Qed.

(** [trim] removes white space of one, two and three bytes at both ends
    and keeps it inside. *)
Example trim_sample : trim "  Acme AB 　" = "Acme AB".
Proof. by vm_compute. Qed.

Example replace_first_sample :
  replace_first "Bearer " "" "Bearer tok-t1" = "tok-t1".
Proof. by vm_compute. Qed.

Lemma tenant_isolation_witness :
  tenantId t1 ≠ tenantId t2 ∧
  (get_organization t2 "u" world_acme).1 = Ok not_found.
Proof.
  split; [done|].
  refine (proj1 (proj2
    (tenant_isolation t1 t2 world_acme "u"
       (row_of "t1" acme "2024-01-01 00:00:00" None) goteborg _ _ _ _)));
    by vm_compute.
Defined.

(** C2 as stated fails: an update with an empty name on an id that has no
    row answers 404, not 400. *)
Lemma blank_name_unknown_id_not_400 :
  online empty_world = true ∧
  blank_name (field (named "") "name") = true ∧
  (put_organization t1 "no-such-id" (named "")
     empty_world).1 = Ok (mkResponse 404 (JError "Not found")) ∧
  ¬ (∃ msg,
       (put_organization t1 "no-such-id" (named "")
          empty_world).1 = Ok (mkResponse 400 (JError msg))).
Proof.
  split; [done|]. split; [by vm_compute|]. split; [by vm_compute|].
  intros [msg Hmsg]. by vm_compute in Hmsg.
Qed.

Lemma name_validation_witness :
  blank_name (field (named "   ") "name") = true ∧
  (put_organization t1 "u" (named "   ") world_acme).1 =
    Ok bad_request ∧
  proper_name (field acme "name") = true ∧
  (∀ resp, (post_organizations t1 acme world_acme).1 =
             Ok resp → status resp ≠ 400).
Proof.
  assert (blank_name (field (named "   ") "name") = true) as Hb
    by by vm_compute.
  assert (proper_name (field acme "name") = true) as Hp by by vm_compute.
  split; [exact Hb|]. split.
  - refine (proj1 (proj2 (proj1 (name_validation t1
              (named "   ")) Hb) world_acme "u"
              (mkOrg "u" (row_of "t1" acme "2024-01-01 00:00:00" None)) _ _));
      by vm_compute.
  - split; [exact Hp|]. intros resp Hresp.
    exact (proj2 (name_validation t1 acme) Hp
             world_acme "u" resp (or_introl Hresp)).
Defined.


Lemma create_get_roundtrip_witness :
  ∃ o, (post_organizations t2 acme world_acme).1 =
         Ok (mkResponse 201 (JOrg (Some o))) ∧
       (get_organization t2 (id o)
          (set_clock "2024-03-03 00:00:00"
             (after (post_organizations t2 acme)
                world_acme))).1 = Ok (mkResponse 200 (JOrg (Some o))) ∧
       updated_at (data o) = None.
Proof.
  destruct (create_get_roundtrip t2 acme world_acme
              "2024-03-03 00:00:00" eq_refl ltac:(by vm_compute)
              ltac:(by vm_compute))
    as (o & Hpost & Hget & Hupd & _).
  exists o. split; [exact Hpost|]. split; [exact Hget | exact Hupd].
Defined.

Lemma update_idempotent_witness :
  ∃ r1, rows (set_clock "2024-02-02 00:00:00"
                (after (put_organization t1 "u" goteborg)
                   world_acme)) !! "u" = Some r1 ∧
        updated_at r1 = Some "2024-01-01 00:00:00" ∧
        rows (after (put_organization t1 "u" goteborg)
                (set_clock "2024-02-02 00:00:00"
                   (after (put_organization t1 "u" goteborg)
                      world_acme))) !! "u" =
          Some (mkRow (tenant_id r1) (name r1) (org_number r1) (address r1)
                  (city r1) (zip r1) (phone r1) (email r1) (website r1)
                  (description r1) (created_at r1)
                  (Some "2024-02-02 00:00:00")).
Proof.
  destruct (update_idempotent t1 "u" goteborg world_acme
              (row_of "t1" acme "2024-01-01 00:00:00" None)
              "2024-02-02 00:00:00" eq_refl ltac:(by vm_compute) eq_refl
              ltac:(by vm_compute))
    as (r1 & _ & Hr1 & Hupd & _ & Hr2 & _).
  exists r1. split; [exact Hr1|]. split; [exact Hupd | exact Hr2].
Defined.

Lemma delete_then_not_found_witness :
  online world_acme = true ∧
  (delete_organization t1 "u" world_acme).1 =
    Ok (mkResponse 200 JOkTrue) ∧
  (get_organization t1 "u"
     (after (delete_organization t1 "u") world_acme)).1 =
    Ok not_found ∧
  (delete_organization t2 "u" world_acme).1 = Ok not_found.
Proof.
  pose proof (delete_then_not_found t1 "u" world_acme
                goteborg eq_refl) as (Hdel & _ & Hget & _).
  pose proof (delete_then_not_found t2 "u" world_acme
                goteborg eq_refl) as (_ & Hmiss & _).
  split; [done|]. split.
  - exact (proj1 (Hdel (mkOrg "u" (row_of "t1" acme "2024-01-01 00:00:00" None))
                    ltac:(by vm_compute))).
  - split; [exact Hget|]. exact (proj1 (Hmiss ltac:(by vm_compute))).
Defined.

Lemma list_sorted_by_name_witness :
  online world_three = true ∧
  ∃ orgs,
    (get_organizations t1 world_three).1 =
      Ok (mkResponse 200 (JOrganizations orgs)) ∧
    StronglySorted name_le orgs.
Proof.
  split; [done|].
  destruct (list_sorted_by_name t1 world_three eq_refl)
    as (orgs & Hlist & Hsorted & _).
  exists orgs. split; [exact Hlist | exact Hsorted].
Defined.

Lemma unauthenticated_rejected_witness :
  ∃ msg,
    (serve
       (mkRequest (Some "Bearer forged") (DELETE_organization "u"))
       world_acme).1 = Responded (mkResponse 401 (JError msg)) ∧
    rows (serve
            (mkRequest (Some "Bearer forged") (DELETE_organization "u"))
            world_acme).2 = rows world_acme.
Proof.
  destruct (unauthenticated_rejected
              (mkRequest (Some "Bearer forged") (DELETE_organization "u"))
              world_acme) as (msg & Hresp & Hrows & _).
  - intros h [= <-]. by vm_compute.
  - exists msg. split; [exact Hresp | exact Hrows].
Defined.



Lemma put_not_found_before_validation_witness :
  blank_name (field (named "") "name") = true ∧
  (put_organization t2 "u" (named "") world_acme).1 =
    Ok not_found.
Proof.
  split; [by vm_compute|].
  rewrite (put_not_found_before_validation t2 "u"
             (named "") world_acme eq_refl ltac:(by vm_compute)).
  done.
Defined.

(** * The further properties at concrete inputs *)

Lemma response_shape_witness :
  (serve (mkRequest (Some "Bearer tok-t2") (GET_organization "u"))
     world_acme).1 = Responded not_found ∧
  ((is_error_status (status not_found) = true ∧
    ∃ msg, body not_found = JError msg ∧ msg ≠ "") ∨
   ((status not_found = 200 ∨ status not_found = 201) ∧
    ∀ msg, body not_found ≠ JError msg)).
Proof.
  split; [by vm_compute|].
  apply (response_shape
           (mkRequest (Some "Bearer tok-t2") (GET_organization "u"))
           world_acme).
  by vm_compute.
Defined.

Lemma other_tenants_untouched_witness :
  rows (serve (mkRequest (Some "Bearer tok-t2") (DELETE_organization "u"))
          world_acme).2 !! "u" = Some acme_row.
Proof.
  apply (other_tenants_untouched
           (mkRequest (Some "Bearer tok-t2") (DELETE_organization "u"))
           world_acme "Bearer tok-t2" t2); by vm_compute.
Defined.

Lemma tenant_and_creation_immutable_witness :
  tenant_id (row_of "t1" goteborg "2024-01-01 00:00:00"
               (Some "2024-01-01 00:00:00")) = tenant_id acme_row ∧
  created_at (row_of "t1" goteborg "2024-01-01 00:00:00"
                (Some "2024-01-01 00:00:00")) = created_at acme_row.
Proof.
  apply (tenant_and_creation_immutable
           (mkRequest (Some "Bearer tok-t1") (PUT_organization "u" goteborg))
           world_acme "u"); by vm_compute.
Defined.

Lemma names_stay_trimmed_witness :
  names_ok
    (rows (serve (mkRequest (Some "Bearer tok-t1")
                    (POST_organizations (named "  Zeta  ")))
             empty_world).2).
Proof. apply names_stay_trimmed. apply map_Forall_empty. Defined.

Lemma create_never_overwrites_witness :
  rows world_collision !! uuidv4_nth (uuid_calls world_collision) =
    Some acme_row ∧
  (post_organizations t2 acme world_collision).1 = Throw SqliteError ∧
  rows (after (post_organizations t2 acme) world_collision) =
    rows world_collision.
Proof.
  split; [by vm_compute|].
  apply (create_never_overwrites t2 acme world_collision acme_row);
    by vm_compute.
Defined.

Lemma non_string_name_throws_witness :
  truthy (field name_five "name") = true ∧
  post_organizations t1 name_five empty_world = (Throw TypeError, empty_world).
Proof.
  split; [by vm_compute|].
  refine (proj1 (non_string_name_throws t1 "u" name_five empty_world _ _)).
  - by vm_compute.
  - intros s. by vm_compute.
Defined.

Lemma create_then_delete_restores_witness :
  rows (after (delete_organization t1 "u")
          (after (post_organizations t1 acme) empty_world)) =
    rows empty_world.
Proof.
  refine (proj2 (create_then_delete_restores t1 acme empty_world _ _ _));
    by vm_compute.
Defined.

Lemma get_agrees_with_list_witness :
  ∃ orgs,
    (get_organizations t1 world_three).1 =
      Ok (mkResponse 200 (JOrganizations orgs)) ∧
    ∀ o, o ∈ orgs ↔
         (get_organization t1 (id o) world_three).1 =
           Ok (mkResponse 200 (JOrg (Some o))).
Proof. apply (get_agrees_with_list t1 world_three). by vm_compute. Defined.

Lemma list_after_create_witness :
  ∃ o orgs orgs',
    (post_organizations t1 (named "Beta") world_three).1 =
      Ok (mkResponse 201 (JOrg (Some o))) ∧
    (get_organizations t1 world_three).1 =
      Ok (mkResponse 200 (JOrganizations orgs)) ∧
    (get_organizations t1
       (after (post_organizations t1 (named "Beta")) world_three)).1 =
      Ok (mkResponse 200 (JOrganizations orgs')) ∧
    orgs' ≡ₚ o :: orgs ∧
    StronglySorted name_le orgs'.
Proof.
  apply (list_after_create t1 (named "Beta") world_three); by vm_compute.
Defined.

Lemma update_get_roundtrip_witness :
  (get_organization t1 "u"
     (set_clock "2024-02-02 00:00:00"
        (after (put_organization t1 "u" goteborg) world_acme))).1 =
    Ok (mkResponse 200
          (JOrg (Some (mkOrg "u"
             (row_of "t1" goteborg "2024-01-01 00:00:00"
                (Some "2024-01-01 00:00:00")))))).
Proof.
  apply (update_get_roundtrip t1 "u" goteborg world_acme
           (mkResponse 200
              (JOrg (Some (mkOrg "u"
                 (row_of "t1" goteborg "2024-01-01 00:00:00"
                    (Some "2024-01-01 00:00:00"))))))
           "2024-02-02 00:00:00"); by vm_compute.
Defined.

Lemma bearer_prefix_optional_witness :
  contains "Bearer " "tok-t1" = false ∧
  serve (mkRequest (Some "tok-t1") GET_organizations) world_acme =
  serve (mkRequest (Some ("Bearer " ++ "tok-t1")) GET_organizations)
    world_acme.
Proof.
  split; [by vm_compute|].
  apply (bearer_prefix_optional "tok-t1" GET_organizations world_acme);
    by vm_compute.
Defined.

Lemma save_validation_agrees_witness :
  valid_body (Frontend.form typed_state) = true ∧
  valid_body (Frontend.form Frontend.initial) = false.
Proof.
  assert (ui_form (Frontend.form typed_state)) as Htyped
    by (apply ui_form_insert, ui_form_empty).
  split.
  - exact (proj1 (save_validation_agrees typed_state Htyped
                    : valid_body (Frontend.form typed_state) = true ∧ _)).
  - exact (proj1 (save_validation_agrees Frontend.initial ui_form_empty
                    : valid_body (Frontend.form Frontend.initial) = false
                      ∧ _)).
Defined.

Lemma edit_then_save_keeps_record_witness :
  decode_org (mkOrg "u" acme_row) = Some acme_org ∧
  rows (after (put_organization t1 "u" (Frontend.form_of acme_org))
          world_collision) =
    <["u" := touched "2024-05-05 00:00:00" acme_row]> (rows world_collision).
Proof.
  split; [by vm_compute|].
  assert (trimmed_name acme_row) as Hname by (split; by vm_compute).
  destruct (edit_then_save_keeps_record (mkOrg "u" acme_row) acme_org t1
              world_collision Frontend.initial ltac:(by vm_compute) Hname
              ltac:(by vm_compute) ltac:(by vm_compute) ltac:(by vm_compute)
              ltac:(by vm_compute))
    as (resume & next & _ & _ & Hrows).
  exact Hrows.
Defined.

Lemma server_message_reaches_ui_witness :
  Frontend.api_result_of
    (Frontend.Response 404 "Not Found" (inr (Frontend.DError "Not found"))) =
  Frontend.Rejected "Not found".
Proof.
  apply (server_message_reaches_ui
           (mkRequest (Some "Bearer tok-t2") (GET_organization "u"))
           world_acme not_found "Not Found" (Frontend.DError "Not found"));
    by vm_compute.
Defined.

Lemma stored_token_is_verified_witness :
  Frontend.headers (Frontend.init
     (Frontend.api_call "/api/mfe/organization" (Some "tok-t1")
        "/organizations" Frontend.no_options)) !! "Authorization" =
    Some ("Bearer " ++ "tok-t1").
Proof.
  refine (proj1 (proj1 (stored_token_is_verified "/api/mfe/organization"
            "/organizations" Frontend.no_options GET_organizations
            world_acme _) "tok-t1" _ _)); done.
Defined.

Lemma save_then_reload_witness :
  ∃ (path : string) (options : Frontend.RequestInit) (message : string),
    Frontend.body options = Some (Frontend.form typed_state) ∧
    (message = "Organisation uppdaterad!" ∨ message = "Organisation skapad!").
Proof.
  destruct (save_then_reload (λ _ _, Frontend.Rejected "offline")
              typed_state " Acme AB" ltac:(by vm_compute)
              ltac:(by vm_compute))
    as (path & options & message & Hbody & Hmsg & _).
  by exists path, options, message.
Defined.

Lemma edit_field_then_save_witness :
  ∃ row',
    rows (after (put_organization t1 "u"
                   (<["phone" := JStr "+46 8 123"]> (Frontend.form_of acme_org)))
            world_collision) !! "u" = Some row' ∧
    phone row' = CText "+46 8 123" ∧
    name row' = name acme_row.
Proof.
  assert (trimmed_name acme_row) as Hname by (split; by vm_compute).
  assert (("phone", phone) ∈ optional_columns) as Hk
    by (unfold optional_columns; repeat constructor).
  destruct (edit_field_then_save (mkOrg "u" acme_row) acme_org t1
              world_collision Frontend.initial "phone" phone "+46 8 123"
              ltac:(by vm_compute) Hname ltac:(by vm_compute)
              ltac:(by vm_compute) ltac:(by vm_compute) ltac:(by vm_compute)
              Hk)
    as (resume & next & row' & _ & _ & Hrows & Hphone & Hnm & _).
  exists row'. split; [exact Hrows|]. split; [exact Hphone | exact Hnm].
Defined.
